(** * AI Resume Critiquer: the analysis script of [main.py]

    A shallow embedding of the Streamlit script: the keyword score
    [ats_score], the text extraction helpers and the [if analyze:] block
    with its session state, followed by the properties of the
    specification that were checked against it.

    Conventions of the model.
    - A Python [str] is a Rocq [string]; each [ascii] is read as one code
      point in U+0000..U+00FF, and [lower], [split], [strip] and [in]
      follow Python on that range.
    - A Python [float] is an IEEE 754 binary64 value, a [spec_float] of the
      Standard Library with [prec = 53] and [emax = 1024].
    - [time.time()] is an input of each run of the script, a rational
      number of seconds.
    - [hashlib.md5], [PyPDF2.PdfReader] and [bytes.decode] are parameters.
    - [st.stop()] ends the run; the exception it raises derives from
      [BaseException], so the [except Exception] clause does not see it. *)

From Stdlib Require Import ZArith List Bool Ascii String QArith Lia Lqa.
From Stdlib Require Import Permutation.
From Stdlib Require Import Floats.SpecFloat.
Import ListNotations.

Local Open Scope string_scope.
Local Open Scope Z_scope.

(** ** Python strings *)

Module PyStr.

Definition code (c : ascii) : N := N_of_ascii c.

(** [str.isspace] on one code point below 256. *)
Definition isspace (c : ascii) : bool :=
  let n := code c in
  ((9 <=? n) && (n <=? 13) || (28 <=? n) && (n <=? 32)
   || (n =? 133) || (n =? 160))%N.

(** [str.lower] on one code point below 256: A-Z and the Latin-1 capitals
    U+00C0..U+00DE other than the multiplication sign U+00D7. *)
Definition lower_char (c : ascii) : ascii :=
  let n := code c in
  if ((65 <=? n) && (n <=? 90)
      || (192 <=? n) && (n <=? 222) && negb (n =? 215))%N
  then ascii_of_N (n + 32) else c.

Fixpoint lower (s : string) : string :=
  match s with
  | EmptyString => EmptyString
  | String c r => String (lower_char c) (lower r)
  end.

(** [s.split()]: the maximal runs of non-whitespace, in order.  [cur] is
    the run being read. *)
Fixpoint split_from (cur : string) (s : string) : list string :=
  match s with
  | EmptyString => match cur with EmptyString => [] | _ => [cur] end
  | String c r =>
      if isspace c then
        match cur with
        | EmptyString => split_from EmptyString r
        | _ => cur :: split_from EmptyString r
        end
      else split_from (cur ++ String c EmptyString) r
  end.

Definition split (s : string) : list string := split_from EmptyString s.

Fixpoint lstrip (s : string) : string :=
  match s with
  | EmptyString => EmptyString
  | String c r => if isspace c then lstrip r else s
  end.

Fixpoint rev (s : string) : string :=
  match s with
  | EmptyString => EmptyString
  | String c r => rev r ++ String c EmptyString
  end.

Definition rstrip (s : string) : string := rev (lstrip (rev s)).

(** [s.strip()] *)
Definition strip (s : string) : string := rstrip (lstrip s).

(** [k in text] *)
Fixpoint contains (k text : string) : bool :=
  prefix k text ||
  match text with
  | EmptyString => false
  | String _ r => contains k r
  end.

(** [s.endswith(suffix)] *)
Definition endswith (s suffix : string) : bool := prefix (rev suffix) (rev s).

(** Truth value of a string: [not s] is [negb (truthy s)]. *)
Definition truthy (s : string) : bool :=
  match s with EmptyString => false | _ => true end.

Definition all_space (s : string) : bool :=
  forallb isspace (list_ascii_of_string s).

End PyStr.

(** ** Python floats and the conversions the score uses *)

Module PyFloat.

Definition float := spec_float.

Definition prec : Z := 53.
Definition emax : Z := 1024.

Definition is_finite (x : float) : bool :=
  match x with
  | S754_zero _ | S754_finite _ _ _ => true
  | _ => false
  end.

(** [a / b] on two [int]s: the correctly rounded quotient;
    [ZeroDivisionError] and [OverflowError] are [None]. *)
Definition int_truediv (a b : Z) : option float :=
  match b with
  | Z0 => None
  | _ =>
      let q :=
        match a with
        | Z0 => S754_zero (Z.ltb b 0)
        | _ =>
            SFdiv prec emax
              (S754_finite (Z.ltb a 0) (Z.to_pos (Z.abs a)) 0)
              (S754_finite (Z.ltb b 0) (Z.to_pos (Z.abs b)) 0)
        end in
      if is_finite q then Some q else None
  end.

(** [float(n)] for an [int] operand of a float operation. *)
Definition of_int (n : Z) : float := binary_normalize prec emax n 0 false.

Definition hundred : float := Eval vm_compute in of_int 100.

Definition mul (x y : float) : float := SFmul prec emax x y.

(** [int(x)]: truncation toward zero; [None] for an infinity or a NaN,
    where Python raises. *)
Definition to_int (x : float) : option Z :=
  match x with
  | S754_zero _ => Some 0
  | S754_finite s m e =>
      let a := match e with
               | Zneg p => Z.shiftr (Zpos m) (Zpos p)
               | _ => Z.shiftl (Zpos m) e
               end in
      Some (if s then - a else a)
  | _ => None
  end.

End PyFloat.

(** The float with sign [s], mantissa [m >= 0] and exponent [e]. *)
Definition make_float (s : bool) (m e : Z) : PyFloat.float :=
  match m with
  | Z0 => S754_zero s
  | Zpos q => S754_finite s q e
  | Zneg _ => S754_nan
  end.

(** ** The score *)

Definition bind {A B : Type} (x : option A) (f : A -> option B) : option B :=
  match x with
  | Some a => f a
  | None => None
  end.

Notation "x <- c1 ;; c2" := (bind c1 (fun x => c2))
  (at level 61, c1 at next level, right associativity).

(** [sum(1 for k in keywords if k in text)] *)
Definition count_hits (keywords : list string) (text : string) : Z :=
  Z.of_nat (List.length (filter (fun k => PyStr.contains k text) keywords)).

(** [int((hits / max(1, n)) * 100)] *)
Definition percent (hits n : Z) : option Z :=
  q <- PyFloat.int_truediv hits (Z.max 1 n) ;;
  PyFloat.to_int (PyFloat.mul q PyFloat.hundred).

(** [ats_score(text, job_role)]; [None] is a raised exception, [job_role]
    is [None] for Python's [None]. *)
Definition ats_score (text : string) (job_role : option string) : option Z :=
  match job_role with
  | None => Some 0
  | Some role =>
      if negb (PyStr.truthy role) then Some 0
      else
        let keywords := PyStr.split (PyStr.lower role) in
        let text := PyStr.lower text in
        let hits := count_hits keywords text in
        p <- percent hits (Z.of_nat (List.length keywords)) ;;
        Some (Z.min 100 p)
  end.

(** The score as the specification words it:
    [round(100 * hits / keywordCount)], to the nearest integer with halves
    up, clamped to 100. *)
Definition spec_rounded_score (hits keywordCount : Z) : Z :=
  Z.min 100 ((2 * (100 * hits) + keywordCount) / (2 * keywordCount)).

(** ** Text extraction *)

(** An exception caught by [except Exception as e]. *)
Inductive exn : Type :=
| LibraryError (msg : string)   (* raised by PyPDF2, [decode] or the provider *)
| ScoreError                    (* raised inside [ats_score] *)
| ProgressValueError (v : Z).   (* [st.progress] outside 0..100 *)

Definition result (A : Type) : Type := (exn + A)%type.

(** The library calls of the script. *)
Record Libraries : Type := mkLibraries {
  (** [hashlib.md5(b).hexdigest()] *)
  md5_hexdigest : list Byte.byte -> string;
  (** [PyPDF2.PdfReader(io.BytesIO(b)).pages], each page as the value of its
      [extract_text()] *)
  pdf_pages : list Byte.byte -> result (list string);
  (** [b.decode("utf-8")] *)
  decode_utf8 : list Byte.byte -> result string
}.

Record UploadedFile : Type := mkUpload {
  name : string;
  content : list Byte.byte
}.

(** The loop of [extract_text_from_pdf]. *)
Fixpoint join_pages (text : string) (pages : list string) : string :=
  match pages with
  | [] => text
  | page :: rest =>
      if PyStr.truthy page
      then join_pages (text ++ page ++ String "010" EmptyString) rest
      else join_pages text rest
  end.

Definition extract_text_from_pdf (L : Libraries) (pdf_file : list Byte.byte)
  : result string :=
  match pdf_pages L pdf_file with
  | inl e => inl e
  | inr pages => inr (join_pages EmptyString pages)
  end.

Definition extract_text_from_file (L : Libraries) (file : option UploadedFile)
  : result string :=
  match file with
  | None => inr EmptyString
  | Some f =>
      let filename := PyStr.lower (name f) in
      if PyStr.endswith filename ".pdf"
      then extract_text_from_pdf L (content f)
      else decode_utf8 L (content f)
  end.

Definition file_hash (L : Libraries) (file_bytes : list Byte.byte) : string :=
  md5_hexdigest L file_bytes.

(** ** Session state and the inputs of one run *)

Record SessionState : Type := mkSession {
  last_request_time : Q;
  last_file_hash : option string;
  cached_response : option string
}.

(** Lines 50-57. *)
Definition initial_session : SessionState := mkSession 0 None None.

(** The two options of the [st.selectbox]. *)
Inductive Mode : Type := DemoMode | GoogleGemini.

(** What one run of the script reads from its widgets and environment. *)
Record Run : Type := mkRun {
  analyze : bool;                         (* [st.button] *)
  uploaded_file : option UploadedFile;    (* [st.file_uploader] *)
  job_role : string;                      (* [st.text_input] *)
  ai_provider : Mode;                     (* [st.selectbox] *)
  current_time : Q;                       (* [time.time()] *)
  genai : bool;                           (* the import at line 14 succeeded *)
  GOOGLE_API_KEY : option string;         (* [os.getenv] *)
  (** [genai.GenerativeModel(...).generate_content(prompt).text] *)
  generate_content : string -> result string
}.

Definition key_set (k : option string) : bool :=
  match k with
  | Some s => PyStr.truthy s
  | None => false
  end.

(** ** The prompt and the demo feedback *)

Definition role_or_default (job_role : string) : string :=
  if PyStr.truthy job_role then job_role else "General job applications".

Definition build_prompt (job_role file_content : string) : string :=
  "
You are a professional career coach and resume expert.

Analyze this resume and provide structured, actionable feedback.

Focus on:
1. Content clarity and impact
2. Skills relevance
3. Experience quality
4. Formatting & ATS optimization
5. Suggestions for this role: " ++ role_or_default job_role ++ "

Resume:
" ++ file_content ++ "

Respond in clear bullet points with section headings.
".

(** The bullet U+2022 lies outside the code points of the model and stands
    here as its three UTF-8 bytes; the text is stored and shown, never
    inspected. *)
Definition demo_feedback : string :=
  "
## Resume Feedback (Demo Mode)

• Add a strong professional summary at the top
• Use measurable achievements instead of responsibilities
• Improve keyword alignment with your job role
• Group technical skills into categories
• Keep bullet points under 2 lines for readability
".

(** ** The [if analyze:] block as a machine *)

Inductive Tier : Type := Low | Moderate | Strong.

(** Lines 133-138. *)
Definition tier (score : Z) : Tier :=
  if score <? 40 then Low else if score <? 70 then Moderate else Strong.

Inductive Stage : Type := InExtraction | InScoring | InProvider.

(** How a run ends. *)
Inductive outcome : Type :=
| NotTriggered                       (* [analyze] is false *)
| StoppedNoFile                      (* lines 94-95 *)
| StoppedTooSoon                     (* lines 100-101 *)
| StoppedCached (fb : option string) (* lines 109-111 *)
| StoppedEmpty                       (* lines 120-121 *)
| StoppedNoGemini                    (* lines 173-174 *)
| Caught (st : Stage) (e : exn)      (* lines 188-189 *)
| Completed (fb : string).           (* lines 184-186 *)

(** The error taxonomy of the specification. *)
Inductive error : Type :=
| NoFileProvided | TooSoon | UnreadableDocument
| ProviderUnavailable | ProviderError | UnexpectedError.

Definition error_of (o : outcome) : option error :=
  match o with
  | NotTriggered | StoppedCached _ | Completed _ => None
  | StoppedNoFile => Some NoFileProvided
  | StoppedTooSoon => Some TooSoon
  | StoppedEmpty => Some UnreadableDocument
  | StoppedNoGemini => Some ProviderUnavailable
  | Caught InExtraction _ => Some UnreadableDocument
  | Caught InProvider _ => Some ProviderError
  | Caught InScoring _ => Some UnexpectedError
  end.

(** What a run does, in order: the widgets it writes and the work it
    performs. *)
Inductive event : Type :=
| WarnUploadFirst                    (* line 94 *)
| WarnWait                           (* line 100 *)
| ReadUpload                         (* line 103 *)
| Hashed (h : string)                (* line 106 *)
| ShowCached (fb : option string)    (* lines 109-110 *)
| Extracted                          (* line 117 *)
| ErrEmpty                           (* line 120 *)
| ShowWordCount (n : Z)              (* line 125 *)
| Scored (score : Z)                 (* lines 128-131 *)
| ShowTier (t : Tier)                (* lines 133-138 *)
| PromptBuilt (prompt : string)      (* lines 141-157 *)
| ErrNoGemini                        (* line 173 *)
| ProviderCalled (prompt : string)   (* lines 176-178 *)
| ShowFeedback (fb : string)         (* lines 184-186 *)
| ErrCaught (e : exn).               (* line 189 *)

(** Program points, with the local variables alive there. *)
Inductive point : Type :=
| Start                                               (* line 92 *)
| RateCheck (f : UploadedFile)                        (* line 97 *)
| ReadFile (f : UploadedFile)                         (* line 103 *)
| CacheCheck (f : UploadedFile) (h : string)          (* line 108 *)
| Stamp (f : UploadedFile) (h : string)               (* line 113 *)
| Extracting (f : UploadedFile) (h : string)          (* line 117 *)
| EmptyCheck (h : string) (file_content : string)     (* line 119 *)
| Scoring (h : string) (file_content : string)        (* line 124 *)
| Prompting (h : string) (file_content : string)      (* line 141 *)
| Generating (h : string) (prompt : string)           (* line 160 *)
| StoreHash (h : string) (output_text : string)       (* line 181 *)
| StoreResponse (output_text : string)                (* line 182 *)
| Display (output_text : string)                      (* line 184 *)
| Halt (o : outcome).

Record config : Type := mkConfig {
  at_point : point;
  session : SessionState;
  trace : list event
}.

Definition Qlt_bool (x y : Q) : bool := negb (Qle_bool y x).

Definition hash_matches (stored : option string) (h : string) : bool :=
  match stored with
  | Some h' => String.eqb h' h
  | None => false
  end.

Definition goto (c : config) (p : point) (evs : list event) : config :=
  mkConfig p (session c) (trace c ++ evs).

Definition word_count (file_content : string) : Z :=
  Z.of_nat (List.length (PyStr.split file_content)).

Section Script.

Variable L : Libraries.
Variable r : Run.

Definition step (c : config) : config :=
  let s := session c in
  match at_point c with
  | Start =>
      if analyze r then
        match uploaded_file r with
        | None => goto c (Halt StoppedNoFile) [WarnUploadFirst]
        | Some f => goto c (RateCheck f) []
        end
      else goto c (Halt NotTriggered) []
  | RateCheck f =>
      if Qlt_bool (current_time r - last_request_time s) 10
      then goto c (Halt StoppedTooSoon) [WarnWait]
      else goto c (ReadFile f) []
  | ReadFile f =>
      let h := file_hash L (content f) in
      goto c (CacheCheck f h) [ReadUpload; Hashed h]
  | CacheCheck f h =>
      if hash_matches (last_file_hash s) h
      then goto c (Halt (StoppedCached (cached_response s)))
             [ShowCached (cached_response s)]
      else goto c (Stamp f h) []
  | Stamp f h =>
      mkConfig (Extracting f h)
        (mkSession (current_time r) (last_file_hash s) (cached_response s))
        (trace c)
  | Extracting f h =>
      match extract_text_from_file L (Some f) with
      | inl e => goto c (Halt (Caught InExtraction e)) [Extracted; ErrCaught e]
      | inr file_content => goto c (EmptyCheck h file_content) [Extracted]
      end
  | EmptyCheck h file_content =>
      if negb (PyStr.truthy (PyStr.strip file_content))
      then goto c (Halt StoppedEmpty) [ErrEmpty]
      else goto c (Scoring h file_content) []
  | Scoring h file_content =>
      let shown := [ShowWordCount (word_count file_content)] in
      match ats_score file_content (Some (job_role r)) with
      | None =>
          goto c (Halt (Caught InScoring ScoreError))
            (shown ++ [ErrCaught ScoreError])
      | Some score =>
          if (0 <=? score) && (score <=? 100)
          then goto c (Prompting h file_content)
                 (shown ++ [Scored score; ShowTier (tier score)])
          else goto c (Halt (Caught InScoring (ProgressValueError score)))
                 (shown ++ [ErrCaught (ProgressValueError score)])
      end
  | Prompting h file_content =>
      let prompt := build_prompt (job_role r) file_content in
      goto c (Generating h prompt) [PromptBuilt prompt]
  | Generating h prompt =>
      match ai_provider r with
      | DemoMode => goto c (StoreHash h demo_feedback) []
      | GoogleGemini =>
          if negb (genai r) || negb (key_set (GOOGLE_API_KEY r))
          then goto c (Halt StoppedNoGemini) [ErrNoGemini]
          else
            match generate_content r prompt with
            | inl e =>
                goto c (Halt (Caught InProvider e))
                  [ProviderCalled prompt; ErrCaught e]
            | inr output_text =>
                goto c (StoreHash h output_text) [ProviderCalled prompt]
            end
      end
  | StoreHash h output_text =>
      mkConfig (StoreResponse output_text)
        (mkSession (last_request_time s) (Some h) (cached_response s))
        (trace c)
  | StoreResponse output_text =>
      mkConfig (Display output_text)
        (mkSession (last_request_time s) (last_file_hash s) (Some output_text))
        (trace c)
  | Display output_text =>
      goto c (Halt (Completed output_text)) [ShowFeedback output_text]
  | Halt _ => c
  end.

Fixpoint exec (n : nat) (c : config) : config :=
  match n with
  | O => c
  | S n' => exec n' (step c)
  end.

Definition boot (s : SessionState) : config := mkConfig Start s [].

(** The longest path through the block takes thirteen steps. *)
Definition script_fuel : nat := 13.

Definition run_script (s : SessionState) : config :=
  exec script_fuel (boot s).

End Script.

Definition halted (c : config) : option outcome :=
  match at_point c with
  | Halt o => Some o
  | _ => None
  end.

Definition cache_of (s : SessionState) : option string * option string :=
  (last_file_hash s, cached_response s).

(** Replaying a list of inputs, the first one first: the state reached, and
    the latest entry produced on the way, [acc] when there is none. *)
Section Replay.

Context {State Input Entry : Type}.
Variable run : Input -> State -> State.
Variable entry : Input -> State -> option Entry.

Fixpoint replay (s : State) (inputs : list Input) : State :=
  match inputs with
  | [] => s
  | i :: later => replay (run i s) later
  end.

Fixpoint latest (s : State) (inputs : list Input) (acc : option Entry)
  : option Entry :=
  match inputs with
  | [] => acc
  | i :: later =>
      latest (run i s) later
        (match entry i s with
         | Some e => Some e
         | None => acc
         end)
  end.

End Replay.

(** The session one run leaves behind. *)
Definition session_after (L : Libraries) (r : Run) (s : SessionState)
  : SessionState :=
  session (run_script L r s).

(** The session after successive runs, the first run first. *)
Definition run_all (L : Libraries) (s : SessionState) (runs : list Run)
  : SessionState :=
  replay (session_after L) s runs.

(** A run that got past the gate and the cache and began an analysis. *)
Definition started (o : outcome) : bool :=
  match o with
  | NotTriggered | StoppedNoFile | StoppedTooSoon | StoppedCached _ => false
  | _ => true
  end.

(** The run is at or past the cache update of lines 181-182. *)
Definition storing (c : config) : bool :=
  match at_point c with
  | StoreResponse _ | Display _ | Halt (Completed _) => true
  | _ => false
  end.

(** Before the cache update the cache of a run in progress is the cache
    [before]. *)
Definition cache_untouched (before : option string * option string)
  (c : config) : Prop :=
  if storing c then True else cache_of (session c) = before.

(** The hash and feedback of a run that completed its analysis. *)
Definition completed_entry (L : Libraries) (r : Run) (s : SessionState)
  : option (string * string) :=
  match halted (run_script L r s), uploaded_file r with
  | Some (Completed fb), Some f => Some (file_hash L (content f), fb)
  | _, _ => None
  end.

(** The entry of the latest completed analysis of a sequence of runs,
    [acc] when there is none. *)
Definition latest_completed (L : Libraries) (s : SessionState)
  (runs : list Run) (acc : option (string * string))
  : option (string * string) :=
  latest (session_after L) (completed_entry L) s runs acc.

Definition entry_cache (entry : option (string * string))
  : option string * option string :=
  match entry with
  | Some (h, fb) => (Some h, Some fb)
  | None => (None, None)
  end.

(** The hash and the feedback of the cache are set together. *)
Definition cache_consistent (s : SessionState) : Prop :=
  last_file_hash s <> None <-> cached_response s <> None.

(** ** Sample data for the examples

    Libraries under which every upload is ASCII text: the digest is a
    stand-in that keeps the bytes, no upload parses as a PDF. *)
Definition is_ascii_byte (b : Byte.byte) : bool :=
  (Byte.to_N b <? 128)%N.

Definition sample_libs : Libraries :=
  mkLibraries
    (fun b => string_of_list_byte b)
    (fun _ => inl (LibraryError "EOF marker not found"))
    (fun b => if forallb is_ascii_byte b
              then inr (string_of_list_byte b)
              else inl (LibraryError "invalid start byte")).

Definition sample_cv : UploadedFile :=
  mkUpload "cv.txt" (list_byte_of_string "data engineer").

Definition other_cv : UploadedFile :=
  mkUpload "other.txt" (list_byte_of_string "senior chef").

Definition blank_cv : UploadedFile :=
  mkUpload "blank.txt" (list_byte_of_string "   ").

Definition no_provider (prompt : string) : result string :=
  inl (LibraryError "provider offline").

(** An [Analyze] click on [f] at time [t], in demo mode. *)
Definition demo_click (f : UploadedFile) (t : Q) : Run :=
  mkRun true (Some f) "Senior Data Engineer" DemoMode t false None no_provider.

(** An [Analyze] click on [f] at time [t] with Gemini selected and neither
    the client library nor the key present. *)
Definition gemini_click_unconfigured (f : UploadedFile) (t : Q) : Run :=
  mkRun true (Some f) "Senior Data Engineer" GoogleGemini t false None
    no_provider.

(** Two clicks on the same upload five seconds apart, in a fresh session. *)
Definition first_click : config :=
  run_script sample_libs (demo_click sample_cv 100) initial_session.

Definition second_click : config :=
  run_script sample_libs (demo_click sample_cv 105) (session first_click).

(** A click with Gemini selected and not configured, in a fresh session. *)
Definition unconfigured_click : config :=
  run_script sample_libs (gemini_click_unconfigured sample_cv 100)
    initial_session.

Definition sample_history : list Run :=
  [demo_click sample_cv 100; demo_click blank_cv 200].

(** ** Vocabulary of the further properties *)

(** A word as [split] returns them: not empty and free of whitespace. *)
Definition word_like (w : string) : bool :=
  PyStr.truthy w &&
  forallb (fun c => negb (PyStr.isspace c)) (list_ascii_of_string w).

Definition newline : string := String "010" EmptyString.

(** The text of the pages that have some, each followed by a newline. *)
Definition pages_text (pages : list string) : string :=
  String.concat EmptyString
    (map (fun page => page ++ newline) (filter PyStr.truthy pages)).

(** The number of calls to the provider in a trace. *)
Fixpoint provider_calls (t : list event) : nat :=
  match t with
  | [] => O
  | ProviderCalled _ :: rest => S (provider_calls rest)
  | _ :: rest => provider_calls rest
  end.

(** The provider can be called: line 172 lets the run through. *)
Definition gemini_ready (r : Run) : bool :=
  genai r && key_set (GOOGLE_API_KEY r).

(** A click on the bytes [b] that passes the rate gate of session [s]. *)
Definition unhurried_click_on (b : list Byte.byte) (s : SessionState)
  (r : Run) : Prop :=
  analyze r = true /\
  (exists f, uploaded_file r = Some f /\ content f = b) /\
  (10 <= current_time r - last_request_time s)%Q.

(** Libraries under which every upload named as a PDF is a scan: two pages
    and no text. *)
Definition scan_libs : Libraries :=
  mkLibraries
    (fun b => string_of_list_byte b)
    (fun _ => inr [EmptyString; EmptyString])
    (decode_utf8 sample_libs).

Definition scanned_cv : UploadedFile :=
  mkUpload "Scan.PDF" (list_byte_of_string "%PDF-1.4").

(** A text file uploaded under a PDF name. *)
Definition misnamed_cv : UploadedFile :=
  mkUpload "cv.pdf" (list_byte_of_string "data engineer").

Definition helpful_provider (prompt : string) : result string :=
  inr "Add a summary.".

(** An [Analyze] click on [f] at time [t] with Gemini selected and
    configured. *)
Definition gemini_click (f : UploadedFile) (t : Q) : Run :=
  mkRun true (Some f) "Senior Data Engineer" GoogleGemini t true
    (Some "key") helpful_provider.

(** * Properties *)

(** ** Strings *)

Lemma split_from_all_space (s : string) :
  PyStr.all_space s = true -> PyStr.split_from EmptyString s = [].
Proof.
  unfold PyStr.all_space.
  induction s as [|c r IH]; simpl; [reflexivity|].
  intros H. apply andb_prop in H. destruct H as [Hc Hr].
  rewrite Hc. now apply IH.
Qed.

Lemma lstrip_all_space (s : string) :
  PyStr.all_space s = true -> PyStr.lstrip s = EmptyString.
Proof.
  unfold PyStr.all_space.
  induction s as [|c r IH]; simpl; [reflexivity|].
  intros H. apply andb_prop in H. destruct H as [Hc Hr].
  rewrite Hc. now apply IH.
Qed.

Lemma strip_all_space (s : string) :
  PyStr.all_space s = true -> PyStr.strip s = EmptyString.
Proof.
  intros H. unfold PyStr.strip. now rewrite (lstrip_all_space s H).
Qed.

Lemma count_hits_bounds (keywords : list string) (text : string) :
  0 <= count_hits keywords text <= Z.of_nat (List.length keywords).
Proof.
  unfold count_hits. split; [lia|].
  apply Nat2Z.inj_le. induction keywords as [|k ks IH]; simpl; [lia|].
  destruct (PyStr.contains k text); simpl; lia.
Qed.

(** ** Binary64 rounding never overflows on the values of the score *)

Module RoundingFacts.

Import PyFloat.

Local Abbreviation digits := Zdigits2.

Lemma digits2_pos_size (p : positive) : digits2_pos p = Pos.size p.
Proof. induction p; simpl; congruence. Qed.

Lemma digits_pos_log2 (p : positive) :
  digits (Zpos p) = Z.log2 (Zpos p) + 1.
Proof.
  simpl. rewrite digits2_pos_size.
  destruct p; simpl; try reflexivity; now rewrite Pos.add_1_r.
Qed.

Lemma digits_nonneg (m : Z) : 0 <= digits m.
Proof. destruct m; simpl; lia. Qed.

(** [digits m] is the least [k] with [m < 2 ^ k]. *)
Lemma digits_le_iff (m k : Z) :
  0 <= m -> 0 <= k -> (digits m <= k <-> m < 2 ^ k).
Proof.
  intros Hm Hk. destruct m as [|p|p]; [| |lia].
  - simpl. split; intros; [apply Z.pow_pos_nonneg|]; lia.
  - rewrite digits_pos_log2.
    rewrite (Z.log2_lt_pow2 (Zpos p) k) by lia. lia.
Qed.

Lemma digits_upper (m : Z) : 0 <= m -> m < 2 ^ digits m.
Proof.
  intros Hm. apply digits_le_iff; auto using digits_nonneg. lia.
Qed.

Lemma digits_succ (m : Z) : 0 <= m -> digits (m + 1) <= digits m + 1.
Proof.
  intros Hm. pose proof (digits_nonneg m) as Hd.
  apply digits_le_iff; try lia.
  pose proof (digits_upper m Hm) as Hu.
  rewrite Z.pow_add_r by lia. change (2 ^ 1) with 2. lia.
Qed.

Lemma digits_mul (a b k : Z) :
  0 <= a -> 0 <= b -> 0 <= k -> b < 2 ^ k ->
  digits (a * b) <= digits a + k.
Proof.
  intros Ha Hb Hk Hbk. pose proof (digits_nonneg a) as Hd.
  apply digits_le_iff; try nia.
  pose proof (digits_upper a Ha) as Hu.
  rewrite Z.pow_add_r by lia. nia.
Qed.

Lemma shr_1_m (mrs : shr_record) :
  0 <= shr_m mrs -> shr_m (shr_1 mrs) = shr_m mrs / 2.
Proof.
  destruct mrs as [m r s]. simpl. intros Hm.
  rewrite <- Z.div2_div.
  destruct m as [|[p|p|]|[p|p|]]; try reflexivity; lia.
Qed.

Lemma iter_shr_1_m (p : positive) :
  forall mrs, 0 <= shr_m mrs ->
    shr_m (iter_pos shr_1 p mrs) = shr_m mrs / 2 ^ Zpos p.
Proof.
  assert (Hpow : forall q, 0 < 2 ^ Zpos q)
    by (intros; apply Z.pow_pos_nonneg; lia).
  assert (Hnn : forall a q, 0 <= a -> 0 <= a / 2 ^ Zpos q)
    by (intros; apply Z.div_pos; auto).
  induction p as [p IH|p IH|]; intros mrs Hm; simpl iter_pos.
  - assert (H1 : 0 <= shr_m (shr_1 mrs))
      by (rewrite shr_1_m by assumption; apply Z.div_pos; lia).
    rewrite IH, IH, shr_1_m; auto.
    2:{ rewrite IH by assumption. apply Hnn; assumption. }
    rewrite !Z.div_div; try lia; auto.
    f_equal. change (Zpos p~1) with (2 * Zpos p + 1).
    replace (2 * Zpos p + 1) with (1 + Zpos p + Zpos p) by lia.
    rewrite !Z.pow_add_r by lia. lia.
  - rewrite IH, IH; auto.
    2:{ rewrite IH by assumption. apply Hnn; assumption. }
    rewrite !Z.div_div; try lia; auto.
    f_equal. change (Zpos p~0) with (2 * Zpos p).
    replace (2 * Zpos p) with (Zpos p + Zpos p) by lia.
    rewrite !Z.pow_add_r by lia. lia.
  - now rewrite shr_1_m.
Qed.

Lemma shr_record_of_loc_m (m : Z) (l : location) :
  shr_m (shr_record_of_loc m l) = m.
Proof. destruct l as [|[ | | ]]; reflexivity. Qed.

Lemma round_nearest_even_bounds (m : Z) (l : location) :
  m <= round_nearest_even m l <= m + 1.
Proof.
  destruct l as [|[ | | ]]; simpl; try destruct (Z.even m); lia.
Qed.

Lemma fexp_eq (x : Z) : fexp prec emax x = Z.max (x - 53) (-1074).
Proof. reflexivity. Qed.

Lemma pow2_pos (p : Z) : 0 <= p -> 0 < 2 ^ p.
Proof. intros Hp. apply Z.pow_pos_nonneg; lia. Qed.

Lemma div_pow2_bounds (m p : Z) :
  0 <= m -> 0 <= p ->
  0 <= m / 2 ^ p /\ m / 2 ^ p * 2 ^ p <= m /\ m < (m / 2 ^ p + 1) * 2 ^ p.
Proof.
  intros Hm Hp. pose proof (pow2_pos p Hp) as Hpow.
  pose proof (Z.div_mod m (2 ^ p)) as Hdm.
  pose proof (Z.mod_pos_bound m (2 ^ p) Hpow) as Hmod.
  assert (0 <= m / 2 ^ p) by (apply Z.div_pos; lia).
  repeat split; nia.
Qed.

(** Dropping [p] low bits lowers the magnitude [digits + exponent] to no
    less than the new exponent. *)
Lemma digits_div_pow2 (m p : Z) :
  0 <= m -> 0 <= p -> digits (m / 2 ^ p) + p <= Z.max (digits m) p.
Proof.
  intros Hm Hp. pose proof (pow2_pos p Hp) as Hpow.
  pose proof (digits_upper m Hm) as Hu.
  pose proof (digits_nonneg m) as Hd.
  destruct (Z_le_gt_dec p (digits m)) as [Hle|Hgt].
  - assert (digits (m / 2 ^ p) <= digits m - p); [|lia].
    apply digits_le_iff; try lia; [apply Z.div_pos; lia|].
    apply Z.div_lt_upper_bound; [lia|].
    rewrite <- Z.pow_add_r by lia.
    now replace (p + (digits m - p)) with (digits m) by lia.
  - assert (H0 : m / 2 ^ p = 0).
    { apply Z.div_small. split; [lia|].
      apply Z.lt_le_trans with (2 ^ digits m); [exact Hu|].
      apply Z.pow_le_mono_r; lia. }
    rewrite H0. simpl. lia.
Qed.

(** [shr_fexp] divides the mantissa by the power of two that brings the
    exponent up to [fexp] of the magnitude. *)
Lemma shr_fexp_shift (m e : Z) (l : location) :
  0 <= m ->
  exists p, 0 <= p /\
    snd (shr_fexp prec emax m e l) = e + p /\
    shr_m (fst (shr_fexp prec emax m e l)) = m / 2 ^ p /\
    e + p = Z.max e (fexp prec emax (digits m + e)).
Proof.
  intros Hm. unfold shr_fexp, shr.
  destruct (fexp prec emax (digits m + e) - e) as [|p|p] eqn:E; cbn [fst snd].
  - exists 0. rewrite shr_record_of_loc_m, Z.pow_0_r, Z.div_1_r. lia.
  - exists (Zpos p).
    rewrite iter_shr_1_m by (rewrite shr_record_of_loc_m; exact Hm).
    rewrite shr_record_of_loc_m. lia.
  - exists 0. rewrite shr_record_of_loc_m, Z.pow_0_r, Z.div_1_r. lia.
Qed.

(** Rounding a non-negative mantissa [m] at exponent [e], of magnitude at
    most [B <= 1023], gives zero or a finite float [m' * 2 ^ (e + p)] less
    than one unit [2 ^ (e + p)] away from every value in [m, m + 1). *)
Lemma binary_round_aux_faithful (s : bool) (m e : Z) (l : location) (B : Z) :
  0 <= m -> digits m + e <= B -> e <= B -> B <= 1023 -> e <= 971 ->
  exists m' p,
    0 <= m' /\ 0 <= p /\
    binary_round_aux prec emax s m e l = make_float s m' (e + p) /\
    m' * 2 ^ p <= m + 2 ^ p /\ m < (m' + 1) * 2 ^ p /\
    digits m' + (e + p) <= Z.max B (-1074) + 1 /\
    e + p <= Z.max e (Z.max (B - 52) (-1074)).
Proof.
  intros Hm HB He HB' He'. unfold binary_round_aux.
  destruct (shr_fexp_shift m e l Hm) as (p1 & Hp1 & He1 & Hm1 & Hx1).
  destruct (shr_fexp prec emax m e l) as [mrs1 e1]. cbn [fst snd] in He1, Hm1.
  subst e1.
  destruct (div_pow2_bounds m p1 Hm Hp1) as (Hq1 & Hlo1 & Hhi1).
  pose proof (digits_div_pow2 m p1 Hm Hp1) as Hd1.
  rewrite <- Hm1 in Hq1, Hlo1, Hhi1, Hd1.
  pose proof (round_nearest_even_bounds (shr_m mrs1) (loc_of_shr_record mrs1))
    as Hr.
  set (m1 := shr_m mrs1) in *.
  set (m2 := round_nearest_even m1 (loc_of_shr_record mrs1)) in *.
  assert (Hm2 : 0 <= m2) by lia.
  assert (Hd2 : digits m2 <= digits m1 + 1).
  { destruct (Z.eq_dec m2 m1) as [->|Hne]; [lia|].
    replace m2 with (m1 + 1) by lia. now apply digits_succ. }
  destruct (shr_fexp_shift m2 (e + p1) loc_Exact Hm2)
    as (p2 & Hp2 & He2 & Hm3 & Hx2).
  destruct (shr_fexp prec emax m2 (e + p1) loc_Exact) as [mrs2 e2].
  cbn [fst snd] in He2, Hm3. subst e2.
  destruct (div_pow2_bounds m2 p2 Hm2 Hp2) as (Hq3 & Hlo3 & Hhi3).
  pose proof (digits_div_pow2 m2 p2 Hm2 Hp2) as Hd3.
  rewrite <- Hm3 in Hq3, Hlo3, Hhi3, Hd3.
  set (m3 := shr_m mrs2) in *.
  rewrite fexp_eq in Hx1, Hx2.
  pose proof (pow2_pos p1 Hp1) as Hpow1. pose proof (pow2_pos p2 Hp2) as Hpow2.
  exists m3, (p1 + p2).
  assert (Hexp : e + (p1 + p2) <= Z.max e (Z.max (B - 52) (-1074))) by lia.
  rewrite Z.pow_add_r by lia.
  repeat split; try lia.
  - replace (e + p1 + p2) with (e + (p1 + p2)) by lia.
    unfold make_float. destruct m3 as [|q|q]; [reflexivity| |lia].
    replace (e + (p1 + p2) <=? emax - prec) with true; [reflexivity|].
    symmetry. apply Z.leb_le. unfold emax, prec. lia.
  - apply Z.le_trans with ((m1 + 1) * 2 ^ p1); [|nia].
    replace (m3 * (2 ^ p1 * 2 ^ p2)) with (m3 * 2 ^ p2 * 2 ^ p1) by ring.
    apply Z.mul_le_mono_nonneg_r; lia.
  - apply Z.lt_le_trans with ((m1 + 1) * 2 ^ p1); [exact Hhi1|].
    replace ((m3 + 1) * (2 ^ p1 * 2 ^ p2)) with ((m3 + 1) * 2 ^ p2 * 2 ^ p1)
      by ring.
    apply Z.mul_le_mono_nonneg_r; lia.
Qed.

Lemma make_float_finite (s : bool) (m e : Z) :
  0 <= m -> is_finite (make_float s m e) = true.
Proof. destruct m; simpl; auto; lia. Qed.

(** The quotient of two positive integers [h <= n], as [mq * 2 ^ (- E)],
    is within [2 ^ (- E)] of [h / n]. *)
Lemma int_truediv_faithful (h n : Z) :
  1 <= h <= n ->
  exists mq E,
    0 <= mq /\ 51 <= E /\
    int_truediv h n = Some (make_float false mq (- E)) /\
    n * mq <= h * 2 ^ E + n /\ h * 2 ^ E < n * (mq + 1) /\
    digits mq - E <= 2.
Proof.
  intros Hh. destruct n as [|pn|pn]; try lia.
  destruct h as [|ph|ph]; try lia.
  unfold int_truediv.
  change (Z.to_pos (Z.abs (Zpos ph))) with ph.
  change (Z.to_pos (Z.abs (Zpos pn))) with pn.
  change (Zpos ph <? 0) with false. change (Zpos pn <? 0) with false.
  unfold SFdiv, SFdiv_core_binary.
  rewrite !Z.add_0_r, Z.sub_diag, Z.sub_0_l, fexp_eq.
  assert (Hdig : digits (Zpos ph) <= digits (Zpos pn)).
  { apply digits_le_iff; try lia; [apply digits_nonneg|].
    apply Z.le_lt_trans with (Zpos pn); [lia|].
    apply digits_upper; lia. }
  set (e' := Z.min (Z.max (digits (Zpos ph) - digits (Zpos pn) - 53) (-1074)) 0)
    in *.
  assert (He' : -1074 <= e' <= -53) by (subst e'; lia).
  destruct (- e') as [|s|s] eqn:Es; try lia.
  rewrite Z.shiftl_mul_pow2 by lia.
  pose proof (pow2_pos (Zpos s) ltac:(lia)) as Hpow.
  pose proof (Z_div_mod (Zpos ph * 2 ^ Zpos s) (Zpos pn) eq_refl) as Hdm.
  destruct (Z.div_eucl (Zpos ph * 2 ^ Zpos s) (Zpos pn)) as [qz rz].
  destruct Hdm as [Heq Hr].
  assert (Hq0 : 0 <= qz) by nia.
  assert (Hq1 : qz <= 2 ^ Zpos s) by nia.
  change (xorb false false) with false.
  assert (Hdq : digits qz + e' <= 1).
  { assert (digits qz <= Zpos s + 1); [|lia].
    apply digits_le_iff; try lia.
    rewrite Z.pow_add_r by lia. change (2 ^ 1) with 2. lia. }
  destruct (binary_round_aux_faithful false qz e' (new_location (Zpos pn) rz) 1
              Hq0 Hdq ltac:(lia) ltac:(lia) ltac:(lia))
    as (mq & p & Hmq & Hp & Hres & Hup & Hlo & Hmag & Hexp).
  rewrite Hres, (make_float_finite false mq _ Hmq).
  exists mq, (- (e' + p)).
  replace (- - (e' + p)) with (e' + p) by lia.
  pose proof (pow2_pos p Hp) as Hpowp.
  assert (HE : 0 <= - (e' + p)) by lia.
  pose proof (pow2_pos _ HE) as HpowE.
  assert (Hs : 2 ^ Zpos s = 2 ^ (- (e' + p)) * 2 ^ p).
  { rewrite <- Z.pow_add_r by lia. f_equal. lia. }
  set (PE := 2 ^ (- (e' + p))) in *. set (PP := 2 ^ p) in *.
  repeat split; try lia.
  - apply Z.mul_le_mono_pos_r with PP; [lia|].
    apply Z.le_trans with (Zpos pn * (qz + PP)); [nia|].
    rewrite Hs in Heq. nia.
  - apply Z.mul_lt_mono_pos_r with PP; [lia|].
    apply Z.lt_le_trans with (Zpos pn * (qz + 1)); [rewrite Hs in Heq; nia|].
    nia.
Qed.

(** The product by [100.0], as [m' * 2 ^ (- Ep)], is within [2 ^ (- Ep)]
    of one hundred times the float. *)
Lemma mul_hundred_faithful (mq E : Z) :
  0 <= mq -> 51 <= E -> digits mq - E <= 2 ->
  exists m' Ep p,
    0 <= m' /\ 0 <= p /\ 43 <= Ep /\ Ep + p = E + 46 /\
    mul (make_float false mq (- E)) hundred = make_float false m' (- Ep) /\
    m' * 2 ^ p <= mq * (100 * 2 ^ 46) + 2 ^ p /\
    mq * (100 * 2 ^ 46) < (m' + 1) * 2 ^ p.
Proof.
  intros Hmq HE Hd. destruct mq as [|q|q]; [| |lia].
  - exists 0, 43, (E + 3). pose proof (pow2_pos (E + 3) ltac:(lia)).
    repeat split; try lia.
  - unfold make_float, mul, hundred, SFmul.
    change (xorb false false) with false. rewrite Pos2Z.inj_mul.
    assert (Hdp : digits (Zpos q * Zpos 7036874417766400) + (- E + -46) <= 9).
    { assert (digits (Zpos q * Zpos 7036874417766400) <= digits (Zpos q) + 53);
        [|lia].
      apply digits_mul; lia. }
    destruct (binary_round_aux_faithful false
                (Zpos q * Zpos 7036874417766400) (- E + -46) loc_Exact 9
                ltac:(lia) Hdp ltac:(lia) ltac:(lia) ltac:(lia))
      as (m' & p & Hm' & Hp & Hres & Hup & Hlo & Hmag & Hexp).
    exists m', (- (- E + -46 + p)), p.
    rewrite Hres. replace (- - (- E + -46 + p)) with (- E + -46 + p) by lia.
    change (100 * 2 ^ 46) with (Zpos 7036874417766400) in *.
    repeat split; try lia.
Qed.

Lemma to_int_make_float (m Ep : Z) :
  0 <= m -> 0 < Ep -> to_int (make_float false m (- Ep)) = Some (m / 2 ^ Ep).
Proof.
  intros Hm HEp. destruct m as [|q|q]; [reflexivity| |lia].
  destruct Ep as [|e|e]; try lia.
  cbn [make_float to_int Z.opp]. now rewrite Z.shiftr_div_pow2 by lia.
Qed.

End RoundingFacts.

(** ** The score is total *)

(** [int((hits / n) * 100)] lies between the exact percentage minus one and
    the exact percentage. *)
Lemma percent_faithful (h n : Z) :
  1 <= h <= n ->
  exists mq E m' Ep p,
    0 <= mq /\ 51 <= E /\ 0 <= m' /\ 0 <= p /\ 43 <= Ep /\ Ep + p = E + 46 /\
    n * mq <= h * 2 ^ E + n /\ h * 2 ^ E < n * (mq + 1) /\
    m' * 2 ^ p <= mq * (100 * 2 ^ 46) + 2 ^ p /\
    mq * (100 * 2 ^ 46) < (m' + 1) * 2 ^ p /\
    percent h n = Some (m' / 2 ^ Ep).
Proof.
  intros Hh.
  destruct (RoundingFacts.int_truediv_faithful h n Hh)
    as (mq & E & Hmq & HE & Hdiv & Hup & Hlo & Hmag).
  destruct (RoundingFacts.mul_hundred_faithful mq E Hmq HE Hmag)
    as (m' & Ep & p & Hm' & Hp & HEp & Hsum & Hmul & Hup' & Hlo').
  exists mq, E, m', Ep, p. repeat split; try assumption.
  unfold percent. replace (Z.max 1 n) with n by lia.
  rewrite Hdiv. cbn [bind]. rewrite Hmul.
  apply RoundingFacts.to_int_make_float; lia.
Qed.

Lemma percent_zero (n : Z) : percent 0 n = Some 0.
Proof.
  unfold percent, PyFloat.int_truediv.
  destruct (Z.max 1 n) eqn:E; try lia; reflexivity.
Qed.

Lemma percent_total (hits n : Z) :
  0 <= hits <= Z.max 1 n -> exists z, percent hits n = Some z /\ 0 <= z.
Proof.
  intros H. destruct (Z.eq_dec hits 0) as [->|Hne].
  { exists 0. split; [apply percent_zero|lia]. }
  assert (Hn : Z.max 1 n = n \/ (n <= 0 /\ hits = 1)) by lia.
  destruct Hn as [Hn|[Hn ->]].
  - destruct (percent_faithful hits n ltac:(lia))
      as (mq & E & m' & Ep & p & Hmq & HE & Hm' & Hp & HEp & _ & _ & _ & _ & _ & Hz).
    eexists. split; [exact Hz|]. apply Z.div_pos; [lia|].
    apply Z.pow_pos_nonneg; lia.
  - exists 100. unfold percent. replace (Z.max 1 n) with 1 by lia.
    split; [reflexivity|lia].
Qed.

(** With fewer than [2 ^ 40] keywords the score before clamping is the
    integer part of the exact percentage, or one less when the percentage
    is itself an integer. *)
Lemma percent_floor (h n : Z) :
  0 <= h <= n -> 1 <= n < 2 ^ 40 ->
  exists z, percent h n = Some z /\ z * n <= 100 * h <= (z + 1) * n.
Proof.
  intros Hh Hn. destruct (Z.eq_dec h 0) as [->|Hne].
  { exists 0. split; [apply percent_zero|lia]. }
  destruct (percent_faithful h n ltac:(lia))
    as (mq & E & m' & Ep & p & Hmq & HE & Hm' & Hp & HEp & Hsum
        & Hq1 & Hq2 & Hp1 & Hp2 & Hz).
  exists (m' / 2 ^ Ep). split; [exact Hz|].
  destruct (RoundingFacts.div_pow2_bounds m' Ep Hm' ltac:(lia))
    as (Hz0 & Hz1 & Hz2).
  set (z := m' / 2 ^ Ep) in *.
  assert (HT : 2 ^ Ep * 2 ^ p = 2 ^ E * 2 ^ 46).
  { rewrite <- !Z.pow_add_r by lia. now rewrite Hsum. }
  assert (HPE : 2 ^ 51 <= 2 ^ E) by (apply Z.pow_le_mono_r; lia).
  assert (HPEp : 2 ^ 43 <= 2 ^ Ep) by (apply Z.pow_le_mono_r; lia).
  pose proof (RoundingFacts.pow2_pos p Hp) as HPP.
  change (2 ^ 40) with 1099511627776 in Hn.
  change (2 ^ 51) with 2251799813685248 in HPE.
  change (2 ^ 43) with 8796093022208 in HPEp.
  change (2 ^ 46) with 70368744177664 in *.
  change (100 * 70368744177664) with 7036874417766400 in *.
  set (PE := 2 ^ E) in *. set (PEp := 2 ^ Ep) in *. set (PP := 2 ^ p) in *.
  set (T := PE * 70368744177664) in *.
  assert (A1 : 16 * (n * 7036874417766400) <= T) by (subst T; lia).
  assert (A2 : 8 * (n * PP) <= T).
  { rewrite <- HT. replace (8 * (n * PP)) with (8 * n * PP) by ring.
    apply Z.mul_le_mono_nonneg_r; lia. }
  assert (HC : PE * 7036874417766400 = 100 * T) by (subst T; ring).
  split.
  - assert (U : z * n * T <= 100 * h * T + n * (7036874417766400 + PP)).
    { apply Z.le_trans with (n * (m' * PP)).
      - rewrite <- HT.
        replace (z * n * (PEp * PP)) with (n * (z * PEp * PP)) by ring.
        apply Z.mul_le_mono_nonneg_l; [lia|].
        apply Z.mul_le_mono_nonneg_r; lia.
      - apply Z.le_trans with (n * (mq * 7036874417766400 + PP)).
        + apply Z.mul_le_mono_nonneg_l; lia.
        + replace (100 * h * T) with (h * PE * 7036874417766400)
            by (rewrite <- Z.mul_assoc, HC; ring).
          nia. }
    nia.
  - assert (V : 100 * h * T < (z + 1) * n * T + n * 7036874417766400).
    { apply Z.lt_le_trans with (n * (mq + 1) * 7036874417766400).
      - replace (100 * h * T) with (h * PE * 7036874417766400)
          by (rewrite <- Z.mul_assoc, HC; ring).
        apply Z.mul_lt_mono_pos_r; lia.
      - apply Z.le_trans with (n * ((m' + 1) * PP) + n * 7036874417766400).
        + nia.
        + rewrite <- HT.
          replace ((z + 1) * n * (PEp * PP)) with (n * ((z + 1) * PEp * PP))
            by ring.
          apply Z.add_le_mono_r. apply Z.mul_le_mono_nonneg_l; [lia|].
          apply Z.mul_le_mono_nonneg_r; lia. }
    nia.
Qed.

Lemma ats_score_total (text : string) (job_role : option string) :
  exists z, ats_score text job_role = Some z /\ 0 <= z <= 100.
Proof.
  destruct job_role as [role|]; simpl; [|exists 0; split; [reflexivity|lia]].
  destruct (PyStr.truthy role); simpl; [|exists 0; split; [reflexivity|lia]].
  set (keywords := PyStr.split (PyStr.lower role)).
  pose proof (count_hits_bounds keywords (PyStr.lower text)) as Hc.
  destruct (percent_total (count_hits keywords (PyStr.lower text))
              (Z.of_nat (List.length keywords))) as (p & -> & Hp); [lia|].
  simpl. exists (Z.min 100 p). split; [reflexivity|lia].
Qed.

(** ** The score of a role *)

Lemma isspace_lower_char (c : ascii) :
  PyStr.isspace c = true -> PyStr.lower_char c = c.
Proof.
  destruct c as [[] [] [] [] [] [] [] []]; intros H; vm_compute in H;
    try discriminate H; reflexivity.
Qed.

Lemma lower_all_space (s : string) :
  PyStr.all_space s = true -> PyStr.lower s = s.
Proof.
  unfold PyStr.all_space.
  induction s as [|c r IH]; simpl; [reflexivity|].
  intros H. apply andb_prop in H. destruct H as [Hc Hr].
  now rewrite (isspace_lower_char c Hc), (IH Hr).
Qed.

Lemma blank_role_has_no_keywords (role : string) :
  PyStr.all_space role = true -> PyStr.split (PyStr.lower role) = [].
Proof.
  intros H. rewrite (lower_all_space role H).
  now apply split_from_all_space.
Qed.

Lemma blank_role_zero (text role : string) :
  PyStr.all_space role = true -> ats_score text (Some role) = Some 0.
Proof.
  intros H. unfold ats_score.
  destruct (negb (PyStr.truthy role)); [reflexivity|].
  rewrite (blank_role_has_no_keywords role H). reflexivity.
Qed.

(** C8. With a job role that is absent, empty or made of whitespace only,
    the score is 0 whatever the text. *)
Theorem blank_role_scores_zero (text : string) (job_role : option string) :
  job_role = None \/
  (exists role, job_role = Some role /\ PyStr.all_space role = true) ->
  ats_score text job_role = Some 0.
Proof.
  intros [->|(role & -> & H)]; [reflexivity|].
  now apply blank_role_zero.
Qed.

(** C9. The score is total: the divisor [max(1, len(keywords))] is at least
    1, the division returns a float, and the result is an integer between 0
    and 100; a whitespace-only role has no keyword and scores 0. *)
Theorem score_division_is_safe (text : string) (job_role : option string) :
  (exists z, ats_score text job_role = Some z /\ 0 <= z <= 100) /\
  (forall role,
      let keywords := PyStr.split (PyStr.lower role) in
      let divisor := Z.max 1 (Z.of_nat (List.length keywords)) in
      1 <= divisor /\
      exists q,
        PyFloat.int_truediv (count_hits keywords (PyStr.lower text)) divisor
        = Some q) /\
  (forall role,
      PyStr.all_space role = true ->
      PyStr.split (PyStr.lower role) = [] /\
      ats_score text (Some role) = Some 0).
Proof.
  split; [apply ats_score_total|]. split.
  - intros role keywords divisor. split; [subst divisor; lia|].
    pose proof (count_hits_bounds keywords (PyStr.lower text)) as Hc.
    set (hits := count_hits keywords (PyStr.lower text)) in *.
    destruct (Z.eq_dec hits 0) as [->|Hne].
    + unfold PyFloat.int_truediv.
      destruct divisor eqn:E; try (subst divisor; lia); eexists; reflexivity.
    + destruct (RoundingFacts.int_truediv_faithful hits divisor)
        as (mq & E & _ & _ & Hq & _); [subst divisor; lia|].
      eexists. exact Hq.
  - intros role H. split;
      [now apply blank_role_has_no_keywords|now apply blank_role_zero].
Qed.

(** C1, as stated, fails: the text has "data" and "engineer" and lacks
    "senior", the rounded percentage of the specification is 67, and the
    score is 66. *)
Lemma two_of_three_scores_66 :
  PyStr.contains "data" (PyStr.lower "data engineer") = true /\
  PyStr.contains "engineer" (PyStr.lower "data engineer") = true /\
  PyStr.contains "senior" (PyStr.lower "data engineer") = false /\
  spec_rounded_score 2 3 = 67 /\
  ats_score "data engineer" (Some "Senior Data Engineer") = Some 66.
Proof. vm_compute. repeat split; reflexivity. Qed.

(** The rounding of the quotient can make the score fall one short of an
    exact percentage: 29 hits out of 100 keywords give 28. *)
Example percent_29_of_100 : percent 29 100 = Some 28.
Proof. vm_compute. reflexivity. Qed.

Lemma floor_or_one_less (x n z : Z) :
  0 < n -> z * n <= x <= (z + 1) * n ->
  z = x / n \/ (z = x / n - 1 /\ x mod n = 0).
Proof.
  intros Hn [Hlo Hhi].
  destruct (Z.eq_dec x ((z + 1) * n)) as [->|Hne].
  - right. rewrite Z.div_mul, Z.mod_mul by lia. lia.
  - left. apply Z.div_unique with (x - z * n); lia.
Qed.

(** C1, amended. For a non-empty job role the score is
    [int((hits / max(1, keywordCount)) * 100)], the double-precision
    percentage truncated toward zero and not rounded, clamped to 100, where
    [hits] counts the keywords of the lower-cased role found in the
    lower-cased text.  With fewer than [2 ^ 40] keywords this is the integer
    part of [100 * hits / keywordCount], or one less when that quotient is
    an integer.  For the role "Senior Data Engineer" and a text with "data"
    and "engineer" and without "senior" the score is 66. *)
Theorem score_truncates_percentage :
  (forall text role : string,
      role <> EmptyString ->
      let keywords := PyStr.split (PyStr.lower role) in
      let hits := count_hits keywords (PyStr.lower text) in
      let n := Z.max 1 (Z.of_nat (List.length keywords)) in
      exists p,
        percent hits (Z.of_nat (List.length keywords)) = Some p /\
        ats_score text (Some role) = Some (Z.min 100 p) /\
        (n < 2 ^ 40 ->
         p = 100 * hits / n \/
         (p = 100 * hits / n - 1 /\ (100 * hits) mod n = 0))) /\
  (forall text : string,
      PyStr.contains "data" (PyStr.lower text) = true ->
      PyStr.contains "engineer" (PyStr.lower text) = true ->
      PyStr.contains "senior" (PyStr.lower text) = false ->
      ats_score text (Some "Senior Data Engineer") = Some 66).
Proof.
  split.
  - intros text role Hrole keywords hits n.
    pose proof (count_hits_bounds keywords (PyStr.lower text)) as Hc.
    fold hits in Hc.
    destruct (percent_total hits (Z.of_nat (List.length keywords)))
      as (p & Hp & Hp0); [lia|].
    exists p. split; [exact Hp|]. split.
    + unfold ats_score. destruct role as [|c role]; [now elim Hrole|].
      cbn [PyStr.truthy negb]. fold keywords. fold hits. now rewrite Hp.
    + intros Hn. apply floor_or_one_less; [subst n; lia|].
      destruct (percent_floor hits n) as (z & Hz & Hb);
        [subst n; lia|subst n; lia|].
      assert (Hsame : percent hits n = percent hits (Z.of_nat (List.length keywords))).
      { unfold percent. subst n. now rewrite Z.max_assoc, Z.max_id. }
      rewrite Hsame, Hp in Hz. injection Hz as <-. exact Hb.
  - intros text Hd He Hs. unfold ats_score. cbn [PyStr.truthy negb].
    change (PyStr.split (PyStr.lower "Senior Data Engineer"))
      with ["senior"; "data"; "engineer"].
    unfold count_hits. cbn [filter]. rewrite Hd, He, Hs. reflexivity.
Qed.

(** ** Runs of the script *)

Lemma Qlt_bool_true (x y : Q) : Qlt_bool x y = true <-> (x < y)%Q.
Proof.
  unfold Qlt_bool. rewrite negb_true_iff.
  split; intros H.
  - apply Qnot_le_lt. intros Hle. apply Qle_bool_iff in Hle. congruence.
  - destruct (Qle_bool y x) eqn:E; [|reflexivity].
    apply Qle_bool_iff in E. exfalso. eapply Qlt_not_le; eauto.
Qed.

Lemma Qlt_bool_false (x y : Q) : Qlt_bool x y = false <-> (y <= x)%Q.
Proof.
  unfold Qlt_bool. rewrite negb_false_iff. apply Qle_bool_iff.
Qed.

Ltac run_step :=
  cbn [exec step goto at_point session trace halted storing started
       last_request_time last_file_hash cached_response cache_of app].

(** Runs the script symbolically, splitting on each test it meets. *)
Ltac crunch :=
  repeat (run_step;
          match goal with
          | H : ?b = _ |- context [step _ _ (if ?b then _ else _)] => rewrite H
          | H : ?x = _ |- context [step _ _ (match ?x with _ => _ end)] =>
              rewrite H
          | |- context [step _ _ (if ?b then _ else _)] => destruct b eqn:?
          | |- context [step _ _ (match ?x with _ => _ end)] => destruct x eqn:?
          end);
  run_step.

Ltac start_run := unfold run_script, script_fuel, boot.

Lemma run_too_soon (L : Libraries) (r : Run) (s : SessionState)
      (f : UploadedFile) :
  analyze r = true -> uploaded_file r = Some f ->
  (current_time r - last_request_time s < 10)%Q ->
  run_script L r s = mkConfig (Halt StoppedTooSoon) s [WarnWait].
Proof.
  intros Ha Hf Ht. apply Qlt_bool_true in Ht.
  start_run. run_step. rewrite Ha, Hf. run_step. rewrite Ht. run_step.
  reflexivity.
Qed.

Lemma started_stamps (L : Libraries) (r : Run) (s : SessionState) (o : outcome) :
  halted (run_script L r s) = Some o -> started o = true ->
  last_request_time (session (run_script L r s)) = current_time r.
Proof.
  start_run. crunch; intros H Hs; inversion H; subst; simpl in Hs;
    try discriminate; reflexivity.
Qed.

Lemma fresh_click_starts (L : Libraries) (r : Run) (f : UploadedFile) :
  analyze r = true -> uploaded_file r = Some f ->
  (10 <= current_time r)%Q ->
  exists o, halted (run_script L r initial_session) = Some o /\
            started o = true.
Proof.
  intros Ha Hf Ht.
  assert (Hg : Qlt_bool (current_time r - last_request_time initial_session) 10
               = false).
  { apply Qlt_bool_false. cbn [last_request_time initial_session].
    setoid_replace (current_time r - 0)%Q with (current_time r) by ring.
    exact Ht. }
  start_run. run_step. rewrite Ha, Hf. run_step. rewrite Hg. run_step.
  change (hash_matches (last_file_hash initial_session)
            (file_hash L (content f))) with false.
  crunch; eexists; split; reflexivity.
Qed.

(** C3. A trigger less than ten seconds after the stored request time is
    rejected as too soon whatever the cache holds: the run only shows the
    wait warning, so nothing is read, extracted, scored or sent to the
    provider, and the session is untouched.  In particular a trigger two
    seconds after one that started an analysis is rejected, whatever file
    either of them carries; the first trigger of a fresh session is such a
    one. *)
Theorem too_soon_is_rejected :
  (forall (L : Libraries) (r : Run) (s : SessionState) (f : UploadedFile),
      analyze r = true -> uploaded_file r = Some f ->
      (current_time r - last_request_time s < 10)%Q ->
      let c := run_script L r s in
      halted c = Some StoppedTooSoon /\
      error_of StoppedTooSoon = Some TooSoon /\
      trace c = [WarnWait] /\
      session c = s) /\
  (forall (L : Libraries) (r1 r2 : Run) (s : SessionState) (o1 : outcome)
          (f2 : UploadedFile),
      halted (run_script L r1 s) = Some o1 -> started o1 = true ->
      analyze r2 = true -> uploaded_file r2 = Some f2 ->
      (current_time r2 == current_time r1 + 2)%Q ->
      let c2 := run_script L r2 (session (run_script L r1 s)) in
      halted c2 = Some StoppedTooSoon /\ trace c2 = [WarnWait]) /\
  (forall (L : Libraries) (r1 r2 : Run) (f1 f2 : UploadedFile),
      analyze r1 = true -> uploaded_file r1 = Some f1 ->
      (10 <= current_time r1)%Q ->
      analyze r2 = true -> uploaded_file r2 = Some f2 ->
      (current_time r2 == current_time r1 + 2)%Q ->
      let c2 := run_script L r2 (session (run_script L r1 initial_session)) in
      halted c2 = Some StoppedTooSoon /\ trace c2 = [WarnWait]).
Proof.
  assert (Hpair : forall (L : Libraries) (r1 r2 : Run) (s : SessionState)
                         (o1 : outcome) (f2 : UploadedFile),
             halted (run_script L r1 s) = Some o1 -> started o1 = true ->
             analyze r2 = true -> uploaded_file r2 = Some f2 ->
             (current_time r2 == current_time r1 + 2)%Q ->
             run_script L r2 (session (run_script L r1 s))
             = mkConfig (Halt StoppedTooSoon) (session (run_script L r1 s))
                 [WarnWait]).
  { intros L r1 r2 s o1 f2 H1 Hs Ha Hf Ht.
    apply (run_too_soon L r2 _ f2 Ha Hf).
    rewrite (started_stamps L r1 s o1 H1 Hs). rewrite Ht. lra. }
  split; [|split].
  - intros L r s f Ha Hf Ht c. subst c.
    rewrite (run_too_soon L r s f Ha Hf Ht). repeat split.
  - intros L r1 r2 s o1 f2 H1 Hs Ha Hf Ht c2. subst c2.
    rewrite (Hpair L r1 r2 s o1 f2 H1 Hs Ha Hf Ht). split; reflexivity.
  - intros L r1 r2 f1 f2 Ha1 Hf1 Ht1 Ha2 Hf2 Ht c2. subst c2.
    destruct (fresh_click_starts L r1 f1 Ha1 Hf1 Ht1) as (o1 & H1 & Hs).
    rewrite (Hpair L r1 r2 initial_session o1 f2 H1 Hs Ha2 Hf2 Ht).
    split; reflexivity.
Qed.

Lemma hash_matches_same (h : string) : hash_matches (Some h) h = true.
Proof. simpl. apply String.eqb_refl. Qed.

Lemma run_cache_hit (L : Libraries) (r : Run) (s : SessionState)
      (f : UploadedFile) :
  analyze r = true -> uploaded_file r = Some f ->
  (10 <= current_time r - last_request_time s)%Q ->
  last_file_hash s = Some (file_hash L (content f)) ->
  run_script L r s
  = mkConfig (Halt (StoppedCached (cached_response s))) s
      [ReadUpload; Hashed (file_hash L (content f));
       ShowCached (cached_response s)].
Proof.
  intros Ha Hf Ht Hh. apply Qlt_bool_false in Ht.
  start_run. run_step. rewrite Ha, Hf. run_step. rewrite Ht. run_step.
  rewrite Hh, hash_matches_same. run_step. reflexivity.
Qed.

(** What a completed run leaves in the session. *)
Lemma completed_session (L : Libraries) (r : Run) (s : SessionState)
      (f : UploadedFile) (fb : string) :
  halted (run_script L r s) = Some (Completed fb) ->
  uploaded_file r = Some f ->
  session (run_script L r s)
  = mkSession (current_time r) (Some (file_hash L (content f))) (Some fb).
Proof.
  start_run. crunch; intros H Hf; inversion H; subst;
    inversion Hf; subst; reflexivity.
Qed.

(** C6. A trigger that passes the rate gate with the hash of the cached
    document shows the cached feedback and stops: the file is read and
    hashed, nothing is extracted, scored or sent to the provider, and the
    session, its request time included, is left as it was.  So a second
    trigger on the bytes of a completed analysis, ten seconds or more after
    it, shows the feedback of that analysis. *)
Theorem cache_hit_short_circuits :
  (forall (L : Libraries) (r : Run) (s : SessionState) (f : UploadedFile),
      analyze r = true -> uploaded_file r = Some f ->
      (10 <= current_time r - last_request_time s)%Q ->
      last_file_hash s = Some (file_hash L (content f)) ->
      let c := run_script L r s in
      halted c = Some (StoppedCached (cached_response s)) /\
      trace c = [ReadUpload; Hashed (file_hash L (content f));
                 ShowCached (cached_response s)] /\
      session c = s /\
      last_request_time (session c) = last_request_time s) /\
  (forall (L : Libraries) (r1 r2 : Run) (s : SessionState)
          (f1 f2 : UploadedFile) (fb : string),
      halted (run_script L r1 s) = Some (Completed fb) ->
      uploaded_file r1 = Some f1 ->
      analyze r2 = true -> uploaded_file r2 = Some f2 ->
      content f2 = content f1 ->
      (10 <= current_time r2 - current_time r1)%Q ->
      let c2 := run_script L r2 (session (run_script L r1 s)) in
      halted c2 = Some (StoppedCached (Some fb)) /\
      trace c2 = [ReadUpload; Hashed (file_hash L (content f1));
                  ShowCached (Some fb)] /\
      session c2 = session (run_script L r1 s)).
Proof.
  split.
  - intros L r s f Ha Hf Ht Hh c. subst c.
    rewrite (run_cache_hit L r s f Ha Hf Ht Hh). repeat split.
  - intros L r1 r2 s f1 f2 fb H1 Hf1 Ha Hf2 Hsame Ht c2. subst c2.
    rewrite (completed_session L r1 s f1 fb H1 Hf1).
    rewrite (run_cache_hit L r2 _ f2 Ha Hf2);
      cbn [last_request_time last_file_hash cached_response];
      rewrite ?Hsame; auto.
Qed.

Lemma empty_check_fires (text : string) :
  PyStr.all_space text = true ->
  negb (PyStr.truthy (PyStr.strip text)) = true.
Proof. intros H. now rewrite (strip_all_space text H). Qed.

(** C7. When the text extracted from the upload is empty or only
    whitespace, no score is computed or shown; a run that extracts the text
    stops on the empty-file error, which is [UnreadableDocument], and so does
    every run that passes the rate gate and misses the cache. *)
Theorem empty_text_is_unreadable
        (L : Libraries) (r : Run) (s : SessionState) (f : UploadedFile)
        (text : string) :
  analyze r = true -> uploaded_file r = Some f ->
  extract_text_from_file L (Some f) = inr text ->
  PyStr.all_space text = true ->
  let c := run_script L r s in
  (forall z, ~ In (Scored z) (trace c)) /\
  (In Extracted (trace c) ->
   halted c = Some StoppedEmpty /\ error_of StoppedEmpty = Some UnreadableDocument) /\
  ((10 <= current_time r - last_request_time s)%Q ->
   hash_matches (last_file_hash s) (file_hash L (content f)) = false ->
   halted c = Some StoppedEmpty /\ cache_of (session c) = cache_of s).
Proof.
  intros Ha Hf Hx Hsp c. subst c. apply empty_check_fires in Hsp.
  start_run. run_step. rewrite Ha, Hf. run_step.
  destruct (Qlt_bool (current_time r - last_request_time s) 10) eqn:Ht;
    run_step.
  { split; [|split].
    - intros z H. simpl in H. intuition discriminate.
    - intros H. simpl in H. intuition discriminate.
    - intros H. apply Qlt_bool_false in H. congruence. }
  destruct (hash_matches (last_file_hash s) (file_hash L (content f))) eqn:Hh;
    run_step.
  { split; [|split].
    - intros z H. simpl in H. intuition discriminate.
    - intros H. simpl in H. intuition discriminate.
    - intros _ H. discriminate. }
  rewrite Hx. run_step. rewrite Hsp. run_step.
  split; [|split].
  - intros z H. simpl in H. intuition discriminate.
  - intros _. split; reflexivity.
  - intros _ _. split; reflexivity.
Qed.

(** C2, as stated, fails: five seconds after a completed analysis of the
    same upload the cache holds its hash and feedback, yet the second click
    is rejected as too soon and the cached feedback is not shown. *)
Lemma rerun_within_window_not_served :
  halted first_click = Some (Completed demo_feedback) /\
  last_file_hash (session first_click)
    = Some (file_hash sample_libs (content sample_cv)) /\
  cached_response (session first_click) = Some demo_feedback /\
  (105 - last_request_time (session first_click) < 10)%Q /\
  halted second_click = Some StoppedTooSoon /\
  halted second_click <> Some (StoppedCached (Some demo_feedback)) /\
  trace second_click = [WarnWait].
Proof.
  vm_compute. repeat split; try reflexivity. discriminate.
Qed.

(** C2, amended. Re-running the analysis on an unchanged document within
    ten seconds of the stored request time is rejected as too soon: the
    cached feedback is not shown, the provider is not called, and the cache
    keeps the hash and the feedback it had. *)
Theorem rerun_within_window_is_rejected
        (L : Libraries) (r : Run) (s : SessionState) (f : UploadedFile)
        (fb : string) :
  analyze r = true -> uploaded_file r = Some f ->
  last_file_hash s = Some (file_hash L (content f)) ->
  cached_response s = Some fb ->
  (current_time r - last_request_time s < 10)%Q ->
  let c := run_script L r s in
  halted c = Some StoppedTooSoon /\
  (forall p, ~ In (ProviderCalled p) (trace c)) /\
  (forall x, ~ In (ShowCached x) (trace c)) /\
  last_file_hash (session c) = Some (file_hash L (content f)) /\
  cached_response (session c) = Some fb.
Proof.
  intros Ha Hf Hh Hc Ht c. subst c.
  rewrite (run_too_soon L r s f Ha Hf Ht). cbn [halted at_point trace session].
  repeat split; auto; intros x H; simpl in H; intuition discriminate.
Qed.

Lemma scoring_succeeds (text job_role : string) :
  exists z, ats_score text (Some job_role) = Some z /\
            (0 <=? z) && (z <=? 100) = true.
Proof.
  destruct (ats_score_total text (Some job_role)) as (z & Hz & Hr).
  exists z. split; [exact Hz|].
  apply andb_true_intro. split; apply Z.leb_le; lia.
Qed.

(** C4, as stated, fails: with Gemini selected and not configured, the
    prompt is built, after the word count and the score are shown, before
    the availability test stops the run. *)
Lemma prompt_built_before_provider_check :
  halted unconfigured_click = Some StoppedNoGemini /\
  trace unconfigured_click =
    [ReadUpload; Hashed (file_hash sample_libs (content sample_cv));
     Extracted; ShowWordCount 2; Scored 66; ShowTier Moderate;
     PromptBuilt (build_prompt "Senior Data Engineer" "data engineer");
     ErrNoGemini].
Proof. vm_compute. split; reflexivity. Qed.

(** C4, amended. With Gemini selected and its client library or key
    missing, no run calls the provider or changes the cache, and a run that
    reaches feedback generation stops with [ProviderUnavailable]; the test is
    made after the prompt is built and before any call to the provider. *)
Theorem unconfigured_provider_is_unavailable
        (L : Libraries) (r : Run) (s : SessionState) :
  ai_provider r = GoogleGemini ->
  genai r && key_set (GOOGLE_API_KEY r) = false ->
  let c := run_script L r s in
  (forall p, ~ In (ProviderCalled p) (trace c)) /\
  cache_of (session c) = cache_of s /\
  (forall (f : UploadedFile) (text : string),
      analyze r = true -> uploaded_file r = Some f ->
      (10 <= current_time r - last_request_time s)%Q ->
      hash_matches (last_file_hash s) (file_hash L (content f)) = false ->
      extract_text_from_file L (Some f) = inr text ->
      PyStr.truthy (PyStr.strip text) = true ->
      halted c = Some StoppedNoGemini /\
      error_of StoppedNoGemini = Some ProviderUnavailable /\
      exists pre,
        trace c = (pre ++ [PromptBuilt (build_prompt (job_role r) text);
                           ErrNoGemini])%list).
Proof.
  intros Hmode Hcfg c. subst c.
  assert (Hun : negb (genai r) || negb (key_set (GOOGLE_API_KEY r)) = true)
    by (destruct (genai r), (key_set (GOOGLE_API_KEY r)); simpl in *; congruence).
  split; [|split].
  - start_run. crunch; intros p H; simpl in H; intuition discriminate.
  - start_run. crunch; reflexivity.
  - intros f text Ha Hf Ht Hh Hx Hne. apply Qlt_bool_false in Ht.
    assert (Hne' : negb (PyStr.truthy (PyStr.strip text)) = false)
      by (now rewrite Hne).
    destruct (scoring_succeeds text (job_role r)) as (z & Hz & Hr).
    start_run. run_step. rewrite Ha, Hf. run_step. rewrite Ht. run_step.
    rewrite Hh. run_step. rewrite Hx. run_step. rewrite Hne'. run_step.
    rewrite Hz. run_step. rewrite Hr. run_step. rewrite Hmode, Hun. run_step.
    repeat split.
    exists [ReadUpload; Hashed (file_hash L (content f)); Extracted;
            ShowWordCount (word_count text); Scored z; ShowTier (tier z)].
    reflexivity.
Qed.

Lemma run_script_halts (L : Libraries) (r : Run) (s : SessionState) :
  exists o, halted (run_script L r s) = Some o.
Proof. start_run. crunch; eexists; reflexivity. Qed.

(** One run either completes and stores its own hash and feedback, or
    leaves the cache as it was. *)
Lemma run_cache (L : Libraries) (r : Run) (s : SessionState) :
  cache_of (session (run_script L r s)) =
  match completed_entry L r s with
  | Some entry => entry_cache (Some entry)
  | None => cache_of s
  end.
Proof.
  unfold completed_entry. start_run. crunch; reflexivity.
Qed.

Lemma step_keeps_cache_untouched (L : Libraries) (r : Run)
      (before : option string * option string) (c : config) :
  cache_untouched before c -> cache_untouched before (step L r c).
Proof.
  unfold cache_untouched, storing.
  destruct c as [p s t].
  destruct p as [ | | | | | | | | | | | | |o]; cbn [step at_point session];
    repeat (match goal with
            | |- context [at_point (if ?b then _ else _)] => destruct b
            | |- context [at_point (match ?x with _ => _ end)] => destruct x
            end;
            cbn [goto at_point session]);
    cbn [goto at_point session cache_of last_file_hash cached_response];
    auto.
Qed.

Lemma exec_keeps_cache_untouched (L : Libraries) (r : Run)
      (before : option string * option string) (n : nat) :
  forall c, cache_untouched before c -> cache_untouched before (exec L r n c).
Proof.
  induction n as [|n IH]; intros c H; cbn [exec]; auto.
  apply IH. now apply step_keeps_cache_untouched.
Qed.

Section ReplayFacts.

Context {State Input Entry View : Type}.
Variable run : Input -> State -> State.
Variable entry : Input -> State -> option Entry.
Variable view : State -> View.
Variable shown : option Entry -> View.

Hypothesis run_view :
  forall i s, view (run i s) =
              match entry i s with
              | Some e => shown (Some e)
              | None => view s
              end.

Lemma replay_view (inputs : list Input) :
  forall s acc,
    view s = shown acc ->
    view (replay run s inputs) = shown (latest run entry s inputs acc).
Proof.
  induction inputs as [|i later IH]; intros s acc H; simpl; [exact H|].
  apply IH. rewrite run_view. destruct (entry i s); [reflexivity|exact H].
Qed.

Variable P : State -> Prop.
Hypothesis run_keeps : forall i s, P s -> P (run i s).

Lemma replay_keeps (inputs : list Input) :
  forall s, P s -> P (replay run s inputs).
Proof.
  induction inputs as [|i later IH]; intros s H; simpl; auto.
Qed.

End ReplayFacts.

Lemma run_all_cache (L : Libraries) (runs : list Run) (s : SessionState)
      (acc : option (string * string)) :
  cache_of s = entry_cache acc ->
  cache_of (run_all L s runs) = entry_cache (latest_completed L s runs acc).
Proof.
  apply (replay_view (session_after L) (completed_entry L) cache_of entry_cache
           (run_cache L)).
Qed.

(** C5. After any sequence of runs from a fresh session the cache holds the
    hash and the feedback of the latest run that completed its analysis,
    and nothing when none did.  A further run always ends; while it is in
    progress, before its own cache update, and whenever it ends otherwise
    than completed, the cache is the one it found; when it completes, the
    cache is its hash and feedback. *)
Theorem cache_holds_latest_completed
        (L : Libraries) (runs : list Run) (r : Run) :
  let s := run_all L initial_session runs in
  cache_of s = entry_cache (latest_completed L initial_session runs None) /\
  (exists o, halted (run_script L r s) = Some o) /\
  (forall n, let c := exec L r n (boot s) in
             storing c = false -> cache_of (session c) = cache_of s) /\
  (forall o, halted (run_script L r s) = Some o ->
             (forall fb, o <> Completed fb) ->
             cache_of (session (run_script L r s)) = cache_of s) /\
  (forall fb f, halted (run_script L r s) = Some (Completed fb) ->
                uploaded_file r = Some f ->
                cache_of (session (run_script L r s))
                = (Some (file_hash L (content f)), Some fb)).
Proof.
  intros s. split; [|split; [|split; [|split]]].
  - subst s. now apply run_all_cache.
  - apply run_script_halts.
  - intros n c Hc. subst c.
    pose proof (exec_keeps_cache_untouched L r (cache_of s) n (boot s)) as H.
    unfold cache_untouched in H. rewrite Hc in H. apply H. reflexivity.
  - intros o Ho Hn. rewrite run_cache. unfold completed_entry. rewrite Ho.
    destruct o; try reflexivity. exfalso. now apply (Hn fb).
  - intros fb f Ho Hf. rewrite run_cache. unfold completed_entry.
    rewrite Ho, Hf. reflexivity.
Qed.

Lemma run_keeps_consistency (L : Libraries) (r : Run) (s : SessionState) :
  cache_consistent s -> cache_consistent (session (run_script L r s)).
Proof.
  intros H. pose proof (run_cache L r s) as Hc.
  unfold cache_consistent, cache_of in *.
  destruct (completed_entry L r s) as [[h fb]|]; cbn [entry_cache] in Hc;
    injection Hc as H1 H2; rewrite H1, H2; [split; discriminate|exact H].
Qed.

Lemma run_all_keeps_consistency (L : Libraries) (runs : list Run)
      (s : SessionState) :
  cache_consistent s -> cache_consistent (run_all L s runs).
Proof.
  apply (replay_keeps (session_after L) cache_consistent
           (run_keeps_consistency L)).
Qed.

Lemma cached_outcome (L : Libraries) (r : Run) (s : SessionState)
      (x : option string) :
  halted (run_script L r s) = Some (StoppedCached x) ->
  x = cached_response s /\ last_file_hash s <> None.
Proof.
  start_run. crunch; intros H; inversion H; subst.
  split; [reflexivity|].
  destruct (last_file_hash s); [discriminate|].
  match goal with H : hash_matches None _ = true |- _ => discriminate H end.
Qed.

(** C10. The stored hash is set exactly when the cached feedback is: both
    are unset in a fresh session, every run keeps them set together, so they
    are after any sequence of runs, and a cache hit then has a feedback text
    to show. *)
Theorem cache_fields_set_together (L : Libraries) :
  cache_consistent initial_session /\
  (forall r s, cache_consistent s ->
               cache_consistent (session (run_script L r s))) /\
  (forall runs, cache_consistent (run_all L initial_session runs)) /\
  (forall runs r x,
      halted (run_script L r (run_all L initial_session runs))
      = Some (StoppedCached x) ->
      exists fb, x = Some fb).
Proof.
  assert (H0 : cache_consistent initial_session)
    by (unfold cache_consistent; simpl; split; intros H; now elim H).
  split; [exact H0|]. split; [|split].
  - intros r s. apply run_keeps_consistency.
  - intros runs. now apply run_all_keeps_consistency.
  - intros runs r x Hx. apply cached_outcome in Hx. destruct Hx as [-> Hh].
    pose proof (run_all_keeps_consistency L runs initial_session H0) as [Hc _].
    specialize (Hc Hh).
    destruct (cached_response (run_all L initial_session runs)) as [fb|];
      [now exists fb|now elim Hc].
Qed.

(** ** The theorems at the sample data *)

Ltac by_computation :=
  vm_compute; first [reflexivity | discriminate | intro; discriminate].

Lemma score_truncates_percentage_witness :
  ats_score "Data engineer, five years" (Some "Senior Data Engineer") = Some 66 /\
  exists p, ats_score "data engineer" (Some "Senior Data Engineer")
            = Some (Z.min 100 p).
Proof.
  split.
  - apply (proj2 score_truncates_percentage); reflexivity.
  - destruct (proj1 score_truncates_percentage "data engineer"
                "Senior Data Engineer" ltac:(discriminate)) as (p & _ & H & _).
    exists p. exact H.
Defined.

Lemma rerun_within_window_is_rejected_witness :
  halted (run_script sample_libs (demo_click sample_cv 105)
            (session first_click))
  = Some StoppedTooSoon.
Proof.
  assert (Hh : last_file_hash (session first_click)
               = Some (file_hash sample_libs (content sample_cv)))
    by by_computation.
  assert (Hc : cached_response (session first_click) = Some demo_feedback)
    by by_computation.
  assert (Ht : (current_time (demo_click sample_cv 105)
                - last_request_time (session first_click) < 10)%Q)
    by by_computation.
  exact (proj1 (rerun_within_window_is_rejected sample_libs
                  (demo_click sample_cv 105) (session first_click) sample_cv
                  demo_feedback eq_refl eq_refl Hh Hc Ht)).
Defined.

Lemma too_soon_is_rejected_witness :
  halted (run_script sample_libs (demo_click sample_cv 105)
            (session first_click))
  = Some StoppedTooSoon /\
  halted (run_script sample_libs (demo_click other_cv 102)
            (session (run_script sample_libs (demo_click sample_cv 100)
                        initial_session)))
  = Some StoppedTooSoon.
Proof.
  assert (Ht : (current_time (demo_click sample_cv 105)
                - last_request_time (session first_click) < 10)%Q)
    by by_computation.
  assert (H1 : (10 <= current_time (demo_click sample_cv 100))%Q)
    by by_computation.
  assert (H2 : (current_time (demo_click other_cv 102)
                == current_time (demo_click sample_cv 100) + 2)%Q)
    by by_computation.
  split.
  - exact (proj1 (proj1 too_soon_is_rejected sample_libs
                    (demo_click sample_cv 105) (session first_click) sample_cv
                    eq_refl eq_refl Ht)).
  - exact (proj1 (proj2 (proj2 too_soon_is_rejected) sample_libs
                    (demo_click sample_cv 100) (demo_click other_cv 102)
                    sample_cv other_cv eq_refl eq_refl H1 eq_refl eq_refl H2)).
Defined.

Lemma unconfigured_provider_is_unavailable_witness :
  halted (run_script sample_libs (gemini_click_unconfigured sample_cv 100)
            initial_session)
  = Some StoppedNoGemini.
Proof.
  assert (Ht : (10 <= current_time (gemini_click_unconfigured sample_cv 100)
                      - last_request_time initial_session)%Q)
    by by_computation.
  assert (Hx : extract_text_from_file sample_libs (Some sample_cv)
               = inr "data engineer") by by_computation.
  assert (Hs : PyStr.truthy (PyStr.strip "data engineer") = true)
    by by_computation.
  exact (proj1 (proj2 (proj2 (unconfigured_provider_is_unavailable sample_libs
                  (gemini_click_unconfigured sample_cv 100) initial_session
                  eq_refl eq_refl))
                  sample_cv "data engineer" eq_refl eq_refl Ht eq_refl Hx Hs)).
Defined.

Lemma cache_holds_latest_completed_witness :
  cache_of (run_all sample_libs initial_session sample_history)
  = entry_cache (latest_completed sample_libs initial_session sample_history None).
Proof.
  exact (proj1 (cache_holds_latest_completed sample_libs sample_history
                  (demo_click sample_cv 300))).
Defined.

Lemma cache_hit_short_circuits_witness :
  halted (run_script sample_libs (demo_click sample_cv 200)
            (session first_click))
  = Some (StoppedCached (cached_response (session first_click))) /\
  halted (run_script sample_libs (demo_click sample_cv 200)
            (session (run_script sample_libs (demo_click sample_cv 100)
                        initial_session)))
  = Some (StoppedCached (Some demo_feedback)).
Proof.
  assert (Ht : (10 <= current_time (demo_click sample_cv 200)
                      - last_request_time (session first_click))%Q)
    by by_computation.
  assert (Hh : last_file_hash (session first_click)
               = Some (file_hash sample_libs (content sample_cv)))
    by by_computation.
  assert (H1 : halted (run_script sample_libs (demo_click sample_cv 100)
                         initial_session)
               = Some (Completed demo_feedback)) by by_computation.
  assert (H2 : (10 <= current_time (demo_click sample_cv 200)
                      - current_time (demo_click sample_cv 100))%Q)
    by by_computation.
  split.
  - exact (proj1 (proj1 cache_hit_short_circuits sample_libs
                    (demo_click sample_cv 200) (session first_click) sample_cv
                    eq_refl eq_refl Ht Hh)).
  - exact (proj1 (proj2 cache_hit_short_circuits sample_libs
                    (demo_click sample_cv 100) (demo_click sample_cv 200)
                    initial_session sample_cv sample_cv demo_feedback
                    H1 eq_refl eq_refl eq_refl eq_refl H2)).
Defined.

Lemma empty_text_is_unreadable_witness :
  halted (run_script sample_libs (demo_click blank_cv 100) initial_session)
  = Some StoppedEmpty.
Proof.
  assert (Hx : extract_text_from_file sample_libs (Some blank_cv) = inr "   ")
    by by_computation.
  assert (Ht : (10 <= current_time (demo_click blank_cv 100)
                      - last_request_time initial_session)%Q)
    by by_computation.
  exact (proj1 (proj2 (proj2 (empty_text_is_unreadable sample_libs
                  (demo_click blank_cv 100) initial_session blank_cv "   "
                  eq_refl eq_refl Hx eq_refl)) Ht eq_refl)).
Defined.

Lemma blank_role_scores_zero_witness :
  ats_score "data engineer" (Some "   ") = Some 0.
Proof.
  apply blank_role_scores_zero. right. exists "   ". split; reflexivity.
Defined.

Lemma score_division_is_safe_witness :
  ats_score "data engineer" (Some "   ") = Some 0.
Proof.
  apply (proj2 (proj2 (score_division_is_safe "data engineer" None))).
  reflexivity.
Defined.

Lemma cache_fields_set_together_witness :
  cache_consistent (session (run_script sample_libs (demo_click sample_cv 100)
                               initial_session)).
Proof.
  exact (proj1 (proj2 (cache_fields_set_together sample_libs))
           (demo_click sample_cv 100) initial_session
           (proj1 (cache_fields_set_together sample_libs))).
Defined.


(** * Further properties of the script *)

(** ** Strings *)

Lemma str_app_assoc (a b c : string) : (a ++ b) ++ c = a ++ (b ++ c).
Proof. induction a as [|x a IH]; simpl; [reflexivity|now rewrite IH]. Qed.

Lemma str_app_nil_r (a : string) : a ++ EmptyString = a.
Proof. induction a as [|x a IH]; simpl; [reflexivity|now rewrite IH]. Qed.

Lemma lower_app (a b : string) :
  PyStr.lower (a ++ b) = PyStr.lower a ++ PyStr.lower b.
Proof. induction a as [|x a IH]; simpl; [reflexivity|now rewrite IH]. Qed.

Lemma lower_char_idem (c : ascii) :
  PyStr.lower_char (PyStr.lower_char c) = PyStr.lower_char c.
Proof. destruct c as [[] [] [] [] [] [] [] []]; reflexivity. Qed.

Lemma lower_idem (s : string) : PyStr.lower (PyStr.lower s) = PyStr.lower s.
Proof.
  induction s as [|c r IH]; simpl; [reflexivity|].
  now rewrite lower_char_idem, IH.
Qed.

Lemma truthy_lower (s : string) : PyStr.truthy (PyStr.lower s) = PyStr.truthy s.
Proof. destruct s; reflexivity. Qed.

Lemma prefix_app (k post : string) : prefix k (k ++ post) = true.
Proof.
  induction k as [|c k IH]; simpl; [destruct post; reflexivity|].
  destruct (ascii_dec c c) as [_|Hne]; [exact IH|now elim Hne].
Qed.

Lemma prefix_split (k text : string) :
  prefix k text = true -> exists post, text = k ++ post.
Proof.
  revert text. induction k as [|c k IH]; intros text H.
  - exists text. reflexivity.
  - destruct text as [|d text]; simpl in H; [discriminate|].
    destruct (ascii_dec c d) as [->|_]; [|discriminate].
    destruct (IH text H) as (post & ->). now exists post.
Qed.

Lemma contains_unfold (k text : string) :
  PyStr.contains k text =
  prefix k text ||
  match text with
  | EmptyString => false
  | String _ r => PyStr.contains k r
  end.
Proof. destruct text; reflexivity. Qed.

(** [k in text] holds exactly when [text] is some prefix, then [k], then
    some suffix. *)
Lemma contains_iff_substring (k text : string) :
  PyStr.contains k text = true <->
  exists pre post, text = pre ++ k ++ post.
Proof.
  split.
  - induction text as [|c text IH]; simpl; intros H.
    + apply orb_prop in H. destruct H as [H|H]; [|discriminate].
      destruct (prefix_split k EmptyString H) as (post & Hp).
      exists EmptyString, post. exact Hp.
    + apply orb_prop in H. destruct H as [H|H].
      * destruct (prefix_split k (String c text) H) as (post & Hp).
        exists EmptyString, post. exact Hp.
      * destruct (IH H) as (pre & post & ->).
        exists (String c pre), post. reflexivity.
  - intros (pre & post & ->).
    induction pre as [|c pre IH]; simpl.
    + rewrite contains_unfold, prefix_app. reflexivity.
    + rewrite IH. apply orb_true_r.
Qed.


(** ** The score *)

Lemma div_eucl_exact (a b : Z) : 0 < b -> Z.div_eucl (a * b) b = (a, 0).
Proof.
  intros Hb. pose proof (Z.div_mul a b ltac:(lia)) as Hq.
  pose proof (Z.mod_mul a b ltac:(lia)) as Hr.
  unfold Z.div, Z.modulo in Hq, Hr.
  destruct (Z.div_eucl (a * b) b) as [q r]. simpl in Hq, Hr. now subst.
Qed.

Lemma new_location_zero (n : Z) : new_location n 0 = loc_Exact.
Proof.
  unfold new_location, new_location_even, new_location_odd.
  destruct (Z.even n); reflexivity.
Qed.

(** [n / n] is exactly [1.0]. *)
Lemma int_truediv_same (n : Z) :
  1 <= n ->
  PyFloat.int_truediv n n = Some (S754_finite false 4503599627370496 (-52)).
Proof.
  intros Hn. destruct n as [|pn|pn]; try lia.
  unfold PyFloat.int_truediv.
  change (Z.to_pos (Z.abs (Zpos pn))) with pn.
  change (Zpos pn <? 0) with false.
  unfold SFdiv, SFdiv_core_binary.
  rewrite !Z.add_0_r, !Z.sub_diag.
  change (Z.min (fexp PyFloat.prec PyFloat.emax 0) 0) with (-53).
  change (0 - -53) with 53.
  rewrite Z.shiftl_mul_pow2 by lia.
  rewrite (Z.mul_comm (Zpos pn)), div_eucl_exact by lia.
  rewrite new_location_zero. reflexivity.
Qed.

Lemma percent_all (n : Z) : 1 <= n -> percent n n = Some 100.
Proof.
  intros Hn. unfold percent. replace (Z.max 1 n) with n by lia.
  rewrite (int_truediv_same n Hn). reflexivity.
Qed.


Lemma count_hits_all (keywords : list string) (text : string) :
  (forall k, In k keywords -> PyStr.contains k text = true) ->
  count_hits keywords text = Z.of_nat (List.length keywords).
Proof.
  intros H. unfold count_hits. f_equal.
  induction keywords as [|k ks IH]; simpl; [reflexivity|].
  rewrite (H k (or_introl eq_refl)). simpl. f_equal.
  apply IH. intros k' Hk'. apply H. now right.
Qed.

Lemma count_hits_none (keywords : list string) (text : string) :
  (forall k, In k keywords -> PyStr.contains k text = false) ->
  count_hits keywords text = 0.
Proof.
  intros H. unfold count_hits.
  induction keywords as [|k ks IH]; simpl; [reflexivity|].
  rewrite (H k (or_introl eq_refl)).
  apply IH. intros k' Hk'. apply H. now right.
Qed.


Lemma count_hits_perm (ks ks' : list string) (text : string) :
  Permutation ks ks' -> count_hits ks text = count_hits ks' text.
Proof.
  intros H. unfold count_hits. f_equal.
  induction H; simpl; try destruct (PyStr.contains x text);
    try destruct (PyStr.contains y text); simpl; congruence.
Qed.

(** The score after the guard of line 83, from the keywords. *)
Lemma ats_score_keywords (text role : string) :
  ats_score text (Some role) =
  bind (percent (count_hits (PyStr.split (PyStr.lower role)) (PyStr.lower text))
          (Z.of_nat (List.length (PyStr.split (PyStr.lower role)))))
       (fun p => Some (Z.min 100 p)).
Proof.
  unfold ats_score. destruct role as [|c role]; [reflexivity|reflexivity].
Qed.

(** X1. When the role has a keyword and every keyword occurs in the
    lower-cased text, the score is 100, however many keywords there are. *)
Theorem all_keywords_score_100 (text role : string) :
  PyStr.split (PyStr.lower role) <> [] ->
  (forall k, In k (PyStr.split (PyStr.lower role)) ->
             PyStr.contains k (PyStr.lower text) = true) ->
  ats_score text (Some role) = Some 100.
Proof.
  intros Hne Hall. rewrite ats_score_keywords, (count_hits_all _ _ Hall).
  rewrite percent_all; [reflexivity|].
  destruct (PyStr.split (PyStr.lower role)); [now elim Hne|simpl; lia].
Qed.

(** X2. When no keyword of the role occurs in the lower-cased text, the
    score is 0. *)
Theorem no_keyword_scores_0 (text role : string) :
  (forall k, In k (PyStr.split (PyStr.lower role)) ->
             PyStr.contains k (PyStr.lower text) = false) ->
  ats_score text (Some role) = Some 0.
Proof.
  intros Hnone. rewrite ats_score_keywords, (count_hits_none _ _ Hnone).
  now rewrite percent_zero.
Qed.



(** X4. The score does not depend on letter case: lower-casing the text
    and the role leaves it unchanged. *)
Theorem score_ignores_case (text role : string) :
  ats_score (PyStr.lower text) (Some (PyStr.lower role))
  = ats_score text (Some role).
Proof. now rewrite !ats_score_keywords, !lower_idem. Qed.

(** X5. The score does not depend on the order of the keywords: two roles
    whose keyword lists are permutations of each other score the same. *)
Theorem score_ignores_keyword_order (text role role' : string) :
  Permutation (PyStr.split (PyStr.lower role)) (PyStr.split (PyStr.lower role')) ->
  ats_score text (Some role) = ats_score text (Some role').
Proof.
  intros H. rewrite !ats_score_keywords.
  now rewrite (count_hits_perm _ _ _ H), (Permutation_length H).
Qed.

(** X6. With a single keyword the score is 100 when the keyword occurs
    anywhere in the lower-cased text, inside a longer word too, and 0
    otherwise. *)
Theorem single_keyword_score (text role k : string) :
  PyStr.split (PyStr.lower role) = [k] ->
  ((exists pre post, PyStr.lower text = pre ++ k ++ post) ->
   ats_score text (Some role) = Some 100) /\
  (~ (exists pre post, PyStr.lower text = pre ++ k ++ post) ->
   ats_score text (Some role) = Some 0).
Proof.
  intros Hk. rewrite ats_score_keywords, Hk. unfold count_hits. cbn [filter].
  split; intros H.
  - apply contains_iff_substring in H. rewrite H. reflexivity.
  - destruct (PyStr.contains k (PyStr.lower text)) eqn:E; [|reflexivity].
    elim H. now apply contains_iff_substring.
Qed.

(** ** Words, blanks and file names *)

Lemma all_space_app (a b : string) :
  PyStr.all_space (a ++ b) = PyStr.all_space a && PyStr.all_space b.
Proof.
  unfold PyStr.all_space.
  induction a as [|c a IH]; simpl; [reflexivity|].
  now rewrite IH, andb_assoc.
Qed.

Lemma all_space_rev (s : string) : PyStr.all_space (PyStr.rev s) = PyStr.all_space s.
Proof.
  induction s as [|c s IH]; simpl; [reflexivity|].
  rewrite all_space_app, IH. unfold PyStr.all_space. simpl.
  rewrite andb_true_r. apply andb_comm.
Qed.

Lemma lstrip_empty_iff (s : string) :
  PyStr.lstrip s = EmptyString <-> PyStr.all_space s = true.
Proof.
  split; [|apply lstrip_all_space].
  unfold PyStr.all_space.
  induction s as [|c s IH]; simpl; [reflexivity|].
  destruct (PyStr.isspace c); [exact IH|discriminate].
Qed.

Lemma all_space_lstrip (s : string) :
  PyStr.all_space (PyStr.lstrip s) = PyStr.all_space s.
Proof.
  unfold PyStr.all_space.
  induction s as [|c s IH]; simpl; [reflexivity|].
  destruct (PyStr.isspace c) eqn:E; [exact IH|].
  simpl. now rewrite E.
Qed.

Lemma rev_empty_iff (s : string) : PyStr.rev s = EmptyString <-> s = EmptyString.
Proof.
  split; [|now intros ->].
  destruct s as [|c s]; [reflexivity|]. simpl.
  destruct (PyStr.rev s); discriminate.
Qed.

Lemma strip_empty_iff (s : string) :
  PyStr.strip s = EmptyString <-> PyStr.all_space s = true.
Proof.
  split; [|apply strip_all_space].
  unfold PyStr.strip, PyStr.rstrip. intros H.
  apply rev_empty_iff, lstrip_empty_iff in H.
  now rewrite all_space_rev, all_space_lstrip in H.
Qed.

Lemma split_from_nil_iff (s : string) :
  forall cur, PyStr.split_from cur s = [] <->
              cur = EmptyString /\ PyStr.all_space s = true.
Proof.
  unfold PyStr.all_space.
  induction s as [|c s IH]; intros cur; simpl.
  - destruct cur; split; try tauto; try discriminate.
    intros [H _]. discriminate.
  - destruct (PyStr.isspace c); simpl.
    + destruct cur.
      * apply IH.
      * split; [discriminate|]. intros [H _]. discriminate.
    + rewrite IH. split; [|intros [_ H]; discriminate].
      intros [H _]. destruct cur; discriminate.
Qed.

Lemma empty_check_only_blank (text : string) :
  negb (PyStr.truthy (PyStr.strip text)) = true -> PyStr.all_space text = true.
Proof.
  intros H. apply strip_empty_iff.
  destruct (PyStr.strip text); [reflexivity|discriminate].
Qed.

(** X7. The upload is refused as empty exactly when its text has no word,
    that is when it is empty or all whitespace; a text that passes the test
    shows a word count of at least 1. *)
Theorem empty_check_iff_no_word (file_content : string) :
  (negb (PyStr.truthy (PyStr.strip file_content)) = true <->
   word_count file_content = 0) /\
  (negb (PyStr.truthy (PyStr.strip file_content)) = true <->
   PyStr.all_space file_content = true) /\
  (negb (PyStr.truthy (PyStr.strip file_content)) = false ->
   1 <= word_count file_content).
Proof.
  assert (Hs : negb (PyStr.truthy (PyStr.strip file_content)) = true <->
               PyStr.all_space file_content = true).
  { rewrite <- strip_empty_iff.
    destruct (PyStr.strip file_content); simpl; split; congruence. }
  assert (Hw : word_count file_content = 0 <->
               PyStr.all_space file_content = true).
  { unfold word_count, PyStr.split.
    pose proof (split_from_nil_iff file_content EmptyString) as Hn.
    destruct (PyStr.split_from EmptyString file_content) as [|w ws].
    - split; [intros _; now apply Hn|reflexivity].
    - split; [cbn [List.length]; lia|]. intros H.
      discriminate (proj2 Hn (conj eq_refl H)). }
  split; [|split].
  - now rewrite Hs, Hw.
  - exact Hs.
  - intros H.
    assert (word_count file_content <> 0).
    { rewrite Hw, <- Hs, H. discriminate. }
    unfold word_count in *. lia.
Qed.

Lemma isspace_lower_char_eq (c : ascii) :
  PyStr.isspace (PyStr.lower_char c) = PyStr.isspace c.
Proof. destruct c as [[] [] [] [] [] [] [] []]; reflexivity. Qed.

Lemma split_from_lower (s : string) :
  forall cur,
    PyStr.split_from (PyStr.lower cur) (PyStr.lower s)
    = map PyStr.lower (PyStr.split_from cur s).
Proof.
  induction s as [|c s IH]; intros cur; simpl.
  - destruct cur; reflexivity.
  - rewrite isspace_lower_char_eq. destruct (PyStr.isspace c).
    + destruct cur; simpl; [apply (IH EmptyString)|].
      f_equal. apply (IH EmptyString).
    + rewrite <- IH, lower_app. reflexivity.
Qed.

Lemma split_from_word (w : string) :
  forall cur rest,
    forallb (fun c => negb (PyStr.isspace c)) (list_ascii_of_string w) = true ->
    PyStr.split_from cur (w ++ rest) = PyStr.split_from (cur ++ w) rest.
Proof.
  induction w as [|c w IH]; intros cur rest H; simpl.
  - now rewrite str_app_nil_r.
  - simpl in H. apply andb_prop in H. destruct H as [Hc Hw].
    apply negb_true_iff in Hc. rewrite Hc, (IH _ _ Hw), str_app_assoc.
    reflexivity.
Qed.

Lemma split_words (words : list string) :
  forallb word_like words = true ->
  PyStr.split (String.concat " " words) = words.
Proof.
  unfold PyStr.split.
  induction words as [|w ws IH]; intros H; [reflexivity|].
  simpl in H. apply andb_prop in H. destruct H as [Hw Hws].
  unfold word_like in Hw. apply andb_prop in Hw. destruct Hw as [Hne Hns].
  destruct ws as [|w' ws].
  - cbn [String.concat]. rewrite <- (str_app_nil_r w) at 1.
    rewrite (split_from_word w EmptyString EmptyString Hns).
    simpl. destruct w; [discriminate|reflexivity].
  - cbn [String.concat].
    rewrite (split_from_word w EmptyString _ Hns).
    cbn [append PyStr.split_from].
    change (PyStr.isspace " ") with true. cbv iota.
    destruct w; [discriminate|]. f_equal. now apply IH.
Qed.

(** X8. Keywords are the words of the role in lower case: lower-casing
    commutes with splitting, and a role written as words separated by single
    spaces yields those words, lower-cased and in order. *)
Theorem keywords_are_lowered_words :
  (forall role : string,
      PyStr.split (PyStr.lower role) = map PyStr.lower (PyStr.split role)) /\
  (forall words : list string,
      forallb word_like words = true ->
      PyStr.split (PyStr.lower (String.concat " " words))
      = map PyStr.lower words).
Proof.
  assert (H : forall role,
             PyStr.split (PyStr.lower role) = map PyStr.lower (PyStr.split role)).
  { intros role. apply (split_from_lower role EmptyString). }
  split; [exact H|].
  intros words Hw. now rewrite H, split_words.
Qed.

Lemma rev_app (a b : string) : PyStr.rev (a ++ b) = PyStr.rev b ++ PyStr.rev a.
Proof.
  induction a as [|c a IH]; simpl; [now rewrite str_app_nil_r|].
  now rewrite IH, str_app_assoc.
Qed.

Lemma rev_involutive (s : string) : PyStr.rev (PyStr.rev s) = s.
Proof.
  induction s as [|c s IH]; simpl; [reflexivity|].
  now rewrite rev_app, IH.
Qed.

Lemma endswith_iff (s suffix : string) :
  PyStr.endswith s suffix = true <-> exists stem, s = stem ++ suffix.
Proof.
  unfold PyStr.endswith. split.
  - intros H. apply prefix_split in H. destruct H as (post & Hp).
    exists (PyStr.rev post).
    rewrite <- (rev_involutive s), Hp, rev_app, rev_involutive. reflexivity.
  - intros (stem & ->). rewrite rev_app. apply prefix_app.
Qed.

Lemma join_pages_text (pages : list string) :
  forall text, join_pages text pages = text ++ pages_text pages.
Proof.
  unfold pages_text.
  induction pages as [|page rest IH]; intros text; simpl.
  - now rewrite str_app_nil_r.
  - destruct (PyStr.truthy page); [|apply IH].
    rewrite IH. cbn [filter map String.concat].
    fold newline.
    destruct (map (fun page0 => page0 ++ newline) (filter PyStr.truthy rest))
      eqn:E; cbn [String.concat].
    + now rewrite !str_app_assoc.
    + now rewrite !str_app_assoc.
Qed.

(** ** Text extraction *)

Lemma extract_pdf_named (L : Libraries) (f : UploadedFile) :
  (exists stem, PyStr.lower (name f) = stem ++ ".pdf") ->
  extract_text_from_file L (Some f) =
  match pdf_pages L (content f) with
  | inl e => inl e
  | inr pages => inr (pages_text pages)
  end.
Proof.
  unfold extract_text_from_file, extract_text_from_pdf. intros H.
  apply endswith_iff in H. rewrite H.
  destruct (pdf_pages L (content f)) as [e|pages]; [reflexivity|].
  now rewrite join_pages_text.
Qed.

(** X9. The parser is chosen by the file name alone, whatever its letter
    case: a name that ends in ".pdf" once lower-cased goes to the PDF reader,
    and the text is that of the pages that have some, each followed by a
    newline, in page order; a reader error is passed on.  Any other name is
    decoded as UTF-8. *)
Theorem extraction_follows_file_name (L : Libraries) (f : UploadedFile) :
  ((exists stem, PyStr.lower (name f) = stem ++ ".pdf") ->
   extract_text_from_file L (Some f) =
   match pdf_pages L (content f) with
   | inl e => inl e
   | inr pages => inr (pages_text pages)
   end) /\
  (~ (exists stem, PyStr.lower (name f) = stem ++ ".pdf") ->
   extract_text_from_file L (Some f) = decode_utf8 L (content f)).
Proof.
  split; [apply extract_pdf_named|]. intros H.
  unfold extract_text_from_file.
  destruct (PyStr.endswith (PyStr.lower (name f)) ".pdf") eqn:E;
    [|reflexivity].
  elim H. now apply endswith_iff.
Qed.

Lemma pages_text_blank (pages : list string) :
  (forall page, In page pages -> page = EmptyString) ->
  pages_text pages = EmptyString.
Proof.
  unfold pages_text. intros H.
  induction pages as [|page rest IH]; [reflexivity|].
  cbn [filter]. rewrite (H page (or_introl eq_refl)). cbn [PyStr.truthy].
  apply IH. intros p Hp. apply H. now right.
Qed.

(** ** Runs that start an analysis *)

Lemma run_extraction_error (L : Libraries) (r : Run) (s : SessionState)
      (f : UploadedFile) (e : exn) :
  analyze r = true -> uploaded_file r = Some f ->
  (10 <= current_time r - last_request_time s)%Q ->
  hash_matches (last_file_hash s) (file_hash L (content f)) = false ->
  extract_text_from_file L (Some f) = inl e ->
  run_script L r s
  = mkConfig (Halt (Caught InExtraction e))
      (mkSession (current_time r) (last_file_hash s) (cached_response s))
      [ReadUpload; Hashed (file_hash L (content f)); Extracted; ErrCaught e].
Proof.
  intros Ha Hf Ht Hh Hx. apply Qlt_bool_false in Ht.
  start_run. crunch. reflexivity.
Qed.

Lemma run_empty (L : Libraries) (r : Run) (s : SessionState)
      (f : UploadedFile) (text : string) :
  analyze r = true -> uploaded_file r = Some f ->
  (10 <= current_time r - last_request_time s)%Q ->
  hash_matches (last_file_hash s) (file_hash L (content f)) = false ->
  extract_text_from_file L (Some f) = inr text ->
  PyStr.all_space text = true ->
  run_script L r s
  = mkConfig (Halt StoppedEmpty)
      (mkSession (current_time r) (last_file_hash s) (cached_response s))
      [ReadUpload; Hashed (file_hash L (content f)); Extracted; ErrEmpty].
Proof.
  intros Ha Hf Ht Hh Hx Hsp. apply Qlt_bool_false in Ht.
  apply empty_check_fires in Hsp.
  start_run. crunch. reflexivity.
Qed.

(** The run of an analysis up to the choice of the provider. *)
Lemma run_to_generation (L : Libraries) (r : Run) (s : SessionState)
      (f : UploadedFile) (text : string) :
  analyze r = true -> uploaded_file r = Some f ->
  (10 <= current_time r - last_request_time s)%Q ->
  hash_matches (last_file_hash s) (file_hash L (content f)) = false ->
  extract_text_from_file L (Some f) = inr text ->
  PyStr.all_space text = false ->
  exists z,
    ats_score text (Some (job_role r)) = Some z /\ 0 <= z <= 100 /\
    exec L r 9 (boot s)
    = mkConfig (Generating (file_hash L (content f))
                  (build_prompt (job_role r) text))
        (mkSession (current_time r) (last_file_hash s) (cached_response s))
        [ReadUpload; Hashed (file_hash L (content f)); Extracted;
         ShowWordCount (word_count text); Scored z; ShowTier (tier z);
         PromptBuilt (build_prompt (job_role r) text)].
Proof.
  intros Ha Hf Ht Hh Hx Hsp. apply Qlt_bool_false in Ht.
  assert (Hne : negb (PyStr.truthy (PyStr.strip text)) = false).
  { destruct (negb (PyStr.truthy (PyStr.strip text))) eqn:E; [|reflexivity].
    apply empty_check_only_blank in E.
    congruence. }
  destruct (ats_score_total text (Some (job_role r))) as (z & Hz & Hr).
  assert (Hr' : (0 <=? z) && (z <=? 100) = true)
    by (apply andb_true_intro; split; apply Z.leb_le; lia).
  exists z. split; [exact Hz|]. split; [exact Hr|].
  unfold boot. crunch. reflexivity.
Qed.

Lemma exec_plus (L : Libraries) (r : Run) (n m : nat) :
  forall c, exec L r (n + m) c = exec L r m (exec L r n c).
Proof. induction n as [|n IH]; intros c; simpl; [reflexivity|apply IH]. Qed.

Lemma run_from_generation (L : Libraries) (r : Run) (s : SessionState) :
  run_script L r s = exec L r 4 (exec L r 9 (boot s)).
Proof.
  unfold run_script, script_fuel. change 13%nat with (9 + 4)%nat.
  apply exec_plus.
Qed.

(** X10. A PDF none of whose pages has extractable text is refused as
    empty: the run that analyses it shows the empty-file error, computes no
    score, stamps the request time and leaves the cache alone. *)
Theorem pdf_without_text_is_empty
        (L : Libraries) (r : Run) (s : SessionState) (f : UploadedFile)
        (pages : list string) :
  analyze r = true -> uploaded_file r = Some f ->
  (10 <= current_time r - last_request_time s)%Q ->
  hash_matches (last_file_hash s) (file_hash L (content f)) = false ->
  (exists stem, PyStr.lower (name f) = stem ++ ".pdf") ->
  pdf_pages L (content f) = inr pages ->
  (forall page, In page pages -> page = EmptyString) ->
  run_script L r s
  = mkConfig (Halt StoppedEmpty)
      (mkSession (current_time r) (last_file_hash s) (cached_response s))
      [ReadUpload; Hashed (file_hash L (content f)); Extracted; ErrEmpty].
Proof.
  intros Ha Hf Ht Hh Hname Hp Hblank.
  apply (run_empty L r s f EmptyString Ha Hf Ht Hh); [|reflexivity].
  rewrite (extract_pdf_named L f Hname), Hp.
  now rewrite (pages_text_blank pages Hblank).
Qed.

(** X11. When the extraction raises, the run shows the error and ends:
    nothing is scored, no prompt is built, the provider is not called and
    the cache is left alone, but the request time is stamped, so that a new
    trigger less than ten seconds later is rejected whatever file it
    carries. *)
Theorem extraction_error_ends_run
        (L : Libraries) (r : Run) (s : SessionState) (f : UploadedFile)
        (e : exn) :
  analyze r = true -> uploaded_file r = Some f ->
  (10 <= current_time r - last_request_time s)%Q ->
  hash_matches (last_file_hash s) (file_hash L (content f)) = false ->
  extract_text_from_file L (Some f) = inl e ->
  let c := run_script L r s in
  halted c = Some (Caught InExtraction e) /\
  trace c = [ReadUpload; Hashed (file_hash L (content f)); Extracted;
             ErrCaught e] /\
  cache_of (session c) = cache_of s /\
  last_request_time (session c) = current_time r /\
  (forall (r2 : Run) (f2 : UploadedFile),
      analyze r2 = true -> uploaded_file r2 = Some f2 ->
      (current_time r2 - current_time r < 10)%Q ->
      halted (run_script L r2 (session c)) = Some StoppedTooSoon).
Proof.
  intros Ha Hf Ht Hh Hx c. subst c.
  rewrite (run_extraction_error L r s f e Ha Hf Ht Hh Hx).
  cbn [halted at_point trace session cache_of last_request_time last_file_hash
       cached_response].
  repeat split.
  intros r2 f2 Ha2 Hf2 Ht2.
  now rewrite (run_too_soon L r2 _ f2 Ha2 Hf2).
Qed.

(** X12. In demo mode an analysis of a text with at least one word always
    completes with the same fixed feedback, whatever the resume, the role
    and the provider settings: the provider is not called, and the cache
    then holds the hash of the upload and that feedback. *)
Theorem demo_mode_completes
        (L : Libraries) (r : Run) (s : SessionState) (f : UploadedFile)
        (text : string) :
  analyze r = true -> uploaded_file r = Some f ->
  (10 <= current_time r - last_request_time s)%Q ->
  hash_matches (last_file_hash s) (file_hash L (content f)) = false ->
  extract_text_from_file L (Some f) = inr text ->
  PyStr.all_space text = false ->
  ai_provider r = DemoMode ->
  exists z,
    ats_score text (Some (job_role r)) = Some z /\
    run_script L r s
    = mkConfig (Halt (Completed demo_feedback))
        (mkSession (current_time r) (Some (file_hash L (content f)))
           (Some demo_feedback))
        [ReadUpload; Hashed (file_hash L (content f)); Extracted;
         ShowWordCount (word_count text); Scored z; ShowTier (tier z);
         PromptBuilt (build_prompt (job_role r) text);
         ShowFeedback demo_feedback].
Proof.
  intros Ha Hf Ht Hh Hx Hsp Hmode.
  destruct (run_to_generation L r s f text Ha Hf Ht Hh Hx Hsp)
    as (z & Hz & _ & Hrun).
  exists z. split; [exact Hz|].
  rewrite run_from_generation, Hrun. crunch. reflexivity.
Qed.

(** X13. With Gemini selected and configured, the provider is called once,
    with the prompt built from the role and the extracted text.  Its reply is
    shown and cached as it is, under the hash of the upload; when the call
    raises, the error is shown and the cache is left alone. *)
Theorem gemini_reply_is_cached_verbatim
        (L : Libraries) (r : Run) (s : SessionState) (f : UploadedFile)
        (text : string) :
  analyze r = true -> uploaded_file r = Some f ->
  (10 <= current_time r - last_request_time s)%Q ->
  hash_matches (last_file_hash s) (file_hash L (content f)) = false ->
  extract_text_from_file L (Some f) = inr text ->
  PyStr.all_space text = false ->
  ai_provider r = GoogleGemini -> gemini_ready r = true ->
  let c := run_script L r s in
  let prompt := build_prompt (job_role r) text in
  provider_calls (trace c) = 1%nat /\
  In (ProviderCalled prompt) (trace c) /\
  last_request_time (session c) = current_time r /\
  (forall output_text,
      generate_content r prompt = inr output_text ->
      halted c = Some (Completed output_text) /\
      cache_of (session c)
      = (Some (file_hash L (content f)), Some output_text) /\
      In (ShowFeedback output_text) (trace c)) /\
  (forall e,
      generate_content r prompt = inl e ->
      halted c = Some (Caught InProvider e) /\
      error_of (Caught InProvider e) = Some ProviderError /\
      cache_of (session c) = cache_of s /\
      In (ErrCaught e) (trace c)).
Proof.
  intros Ha Hf Ht Hh Hx Hsp Hmode Hready c prompt. subst c prompt.
  destruct (run_to_generation L r s f text Ha Hf Ht Hh Hx Hsp)
    as (z & Hz & _ & Hrun).
  assert (Hun : negb (genai r) || negb (key_set (GOOGLE_API_KEY r)) = false).
  { unfold gemini_ready in Hready.
    destruct (genai r), (key_set (GOOGLE_API_KEY r)); simpl in *; congruence. }
  rewrite run_from_generation, Hrun.
  destruct (generate_content r (build_prompt (job_role r) text))
    as [e|output_text] eqn:Hg; crunch.
  - split; [reflexivity|]. split; [simpl; tauto|]. split; [reflexivity|].
    split; [intros o Ho; discriminate|].
    intros e' He'. injection He' as <-. repeat split. simpl. tauto.
  - split; [reflexivity|]. split; [simpl; tauto|]. split; [reflexivity|].
    split; [|intros e He; discriminate].
    intros o Ho. injection Ho as <-. repeat split. simpl. tauto.
Qed.

(** ** What a run changes and what it never does *)

Lemma passed_empty_check (text : string) :
  negb (PyStr.truthy (PyStr.strip text)) = false -> PyStr.all_space text = false.
Proof.
  intros H. destruct (PyStr.all_space text) eqn:E; [|reflexivity].
  apply empty_check_fires in E. congruence.
Qed.

(** X14. An analysis starts exactly when the button was clicked, a file is
    present, ten seconds have passed since the stored request time and the
    hash of the file is not the cached one.  A run that starts one stamps
    the request time with the current time; any other run leaves the whole
    session as it was. *)
Theorem session_changes_only_when_started
        (L : Libraries) (r : Run) (s : SessionState) (o : outcome) :
  halted (run_script L r s) = Some o ->
  (started o = true <->
   exists f, analyze r = true /\ uploaded_file r = Some f /\
             (10 <= current_time r - last_request_time s)%Q /\
             hash_matches (last_file_hash s) (file_hash L (content f)) = false) /\
  (started o = true ->
   last_request_time (session (run_script L r s)) = current_time r) /\
  (started o = false -> session (run_script L r s) = s).
Proof.
  start_run. crunch; intros H; injection H as <-; cbn [started];
    (split; [|split; [reflexivity || (intros; discriminate)
                     |reflexivity || (intros; discriminate)]]);
    (split; [try discriminate|]);
    try (intros (f & Ha & Hf & Ht & Hh); apply Qlt_bool_false in Ht;
         congruence);
    try (intros _; eexists; repeat split; eauto;
         now apply Qlt_bool_false).
Qed.

(** X15. Scoring never fails inside a run: no run ends on an exception
    raised while scoring, and every score a run shows is the score of the
    extracted text for the role typed in, between 0 and 100, so that the
    progress bar always gets a valid value. *)
Theorem scoring_never_fails (L : Libraries) (r : Run) (s : SessionState) :
  (forall e, halted (run_script L r s) <> Some (Caught InScoring e)) /\
  (forall z, In (Scored z) (trace (run_script L r s)) ->
             0 <= z <= 100 /\
             exists f text,
               uploaded_file r = Some f /\
               extract_text_from_file L (Some f) = inr text /\
               ats_score text (Some (job_role r)) = Some z).
Proof.
  split.
  - start_run. crunch; intros err Hhalt; try discriminate;
      injection Hhalt as _;
      match goal with
      | Hs : ats_score ?t (Some ?j) = _ |- _ =>
          destruct (scoring_succeeds t j) as (z' & Hz' & Hr'); congruence
      end.
  - start_run. crunch; intros z' Hin; simpl in Hin;
      repeat (destruct Hin as [Hin|Hin]; try discriminate);
      try contradiction;
      injection Hin as <-;
      match goal with
      | Hs : ats_score ?t (Some ?j) = Some ?z |- _ =>
          destruct (ats_score_total t (Some j)) as (z0 & Hz0 & Hr0);
          assert (z0 = z) by congruence; subst z0;
          split; [exact Hr0|eauto]
      end.
Qed.

(** X16. A run calls the provider at most once, and only with Gemini
    selected and configured, after a click on a file whose extracted text has
    a word; the prompt it sends is the one built from the role and that
    text. *)
Theorem provider_called_only_when_ready
        (L : Libraries) (r : Run) (s : SessionState) :
  (provider_calls (trace (run_script L r s)) <= 1)%nat /\
  (forall p, In (ProviderCalled p) (trace (run_script L r s)) ->
             ai_provider r = GoogleGemini /\ gemini_ready r = true /\
             analyze r = true /\
             exists f text,
               uploaded_file r = Some f /\
               extract_text_from_file L (Some f) = inr text /\
               PyStr.all_space text = false /\
               p = build_prompt (job_role r) text).
Proof.
  split.
  - start_run. crunch; simpl; lia.
  - start_run. crunch; intros p Hin; simpl in Hin;
      repeat (destruct Hin as [Hin|Hin]; try discriminate);
      try contradiction;
      injection Hin as <-;
      (split; [reflexivity|]);
      (split; [unfold gemini_ready;
               destruct (genai r), (key_set (GOOGLE_API_KEY r));
               simpl in *; congruence|]);
      (split; [reflexivity|]);
      do 2 eexists; repeat split; eauto using passed_empty_check.
Qed.

Lemma build_prompt_parts (job_role file_content : string) :
  exists head middle tail,
    build_prompt job_role file_content
    = head ++ role_or_default job_role ++ middle ++ file_content ++ tail.
Proof. unfold build_prompt. do 3 eexists. reflexivity. Qed.

(** X17. The prompt carries the extracted text verbatim and the role as
    typed; with an empty role it carries "General job applications"
    instead. *)
Theorem prompt_embeds_resume_and_role (job_role file_content : string) :
  PyStr.contains file_content (build_prompt job_role file_content) = true /\
  (job_role <> EmptyString ->
   PyStr.contains job_role (build_prompt job_role file_content) = true) /\
  (job_role = EmptyString ->
   PyStr.contains "General job applications"
     (build_prompt job_role file_content) = true).
Proof.
  destruct (build_prompt_parts job_role file_content)
    as (head & middle & tail & ->).
  split; [|split].
  - apply contains_iff_substring.
    exists (head ++ role_or_default job_role ++ middle), tail.
    now rewrite !str_app_assoc.
  - intros Hne. apply contains_iff_substring.
    exists head, (middle ++ file_content ++ tail).
    unfold role_or_default. destruct job_role; [now elim Hne|reflexivity].
  - intros ->. apply contains_iff_substring.
    exists head, (middle ++ file_content ++ tail). reflexivity.
Qed.

Section ReplayFixed.

Context {State Input : Type}.
Variable run : Input -> State -> State.
Variable fixes : State -> Input -> Prop.
Hypothesis run_fixed : forall i s, fixes s i -> run i s = s.

Lemma replay_fixed (inputs : list Input) (s : State) :
  Forall (fixes s) inputs -> replay run s inputs = s.
Proof.
  induction 1 as [|i later Hi _ IH]; simpl; [reflexivity|].
  now rewrite (run_fixed i s Hi).
Qed.

End ReplayFixed.

Lemma cached_click_keeps_session (L : Libraries) (b : list Byte.byte)
      (r : Run) (s : SessionState) :
  last_file_hash s = Some (file_hash L b) ->
  unhurried_click_on b s r -> session_after L r s = s.
Proof.
  intros Hh (Ha & (f & Hf & <-) & Ht). unfold session_after.
  now rewrite (run_cache_hit L r s f Ha Hf Ht Hh).
Qed.

(** X18. Cache hits are not rate limited: once ten seconds have passed
    since the stored request time, any number of clicks on the cached bytes,
    however close together and under whatever file name, leave the session
    as it was, and a further such click still shows the cached feedback. *)
Theorem cache_hits_are_not_rate_limited
        (L : Libraries) (b : list Byte.byte) (s : SessionState)
        (runs : list Run) (r : Run) :
  last_file_hash s = Some (file_hash L b) ->
  Forall (unhurried_click_on b s) runs ->
  unhurried_click_on b s r ->
  run_all L s runs = s /\
  halted (run_script L r (run_all L s runs))
  = Some (StoppedCached (cached_response s)).
Proof.
  intros Hh Hruns Hr.
  assert (Hall : run_all L s runs = s).
  { apply (replay_fixed (session_after L) (fun s' r' =>
             s' = s /\ unhurried_click_on b s r')).
    - intros r' s' [-> Hr']. now apply (cached_click_keeps_session L b).
    - apply Forall_forall. intros r' Hin. split; [reflexivity|].
      now apply (proj1 (Forall_forall _ _) Hruns). }
  split; [exact Hall|]. rewrite Hall.
  destruct Hr as (Ha & (f & Hf & <-) & Ht).
  now rewrite (run_cache_hit L r s f Ha Hf Ht Hh).
Qed.

(** ** The further properties at the sample data *)

Lemma all_keywords_score_100_witness :
  ats_score "Senior DATA engineer" (Some "Data Engineer") = Some 100.
Proof.
  apply all_keywords_score_100.
  - discriminate.
  - intros k [<-|[<-|[]]]; reflexivity.
Defined.

Lemma no_keyword_scores_0_witness :
  ats_score "data engineer" (Some "Pastry Chef") = Some 0.
Proof.
  apply no_keyword_scores_0.
  intros k [<-|[<-|[]]]; reflexivity.
Defined.


Lemma score_ignores_keyword_order_witness :
  ats_score "data" (Some "data engineer") = ats_score "data" (Some "engineer data").
Proof.
  apply score_ignores_keyword_order.
  change (Permutation ["data"; "engineer"] ["engineer"; "data"]).
  apply perm_swap.
Defined.

Lemma single_keyword_score_witness :
  ats_score "JavaScript developer" (Some "Java") = Some 100.
Proof.
  apply (proj1 (single_keyword_score "JavaScript developer" "Java" "java"
                  eq_refl)).
  exists EmptyString, "script developer". reflexivity.
Defined.

Lemma empty_check_iff_no_word_witness : 1 <= word_count "data engineer".
Proof.
  apply (proj2 (proj2 (empty_check_iff_no_word "data engineer"))).
  reflexivity.
Defined.

Lemma keywords_are_lowered_words_witness :
  PyStr.split (PyStr.lower (String.concat " " ["Senior"; "Data"; "Engineer"]))
  = map PyStr.lower ["Senior"; "Data"; "Engineer"].
Proof.
  apply (proj2 keywords_are_lowered_words). reflexivity.
Defined.

Lemma extraction_follows_file_name_witness :
  extract_text_from_file scan_libs (Some scanned_cv) =
  match pdf_pages scan_libs (content scanned_cv) with
  | inl e => inl e
  | inr pages => inr (pages_text pages)
  end.
Proof.
  apply (proj1 (extraction_follows_file_name scan_libs scanned_cv)).
  exists "scan". reflexivity.
Defined.

Lemma pdf_without_text_is_empty_witness :
  run_script scan_libs (demo_click scanned_cv 100) initial_session
  = mkConfig (Halt StoppedEmpty)
      (mkSession (current_time (demo_click scanned_cv 100))
         (last_file_hash initial_session) (cached_response initial_session))
      [ReadUpload; Hashed (file_hash scan_libs (content scanned_cv));
       Extracted; ErrEmpty].
Proof.
  assert (Ht : (10 <= current_time (demo_click scanned_cv 100)
                      - last_request_time initial_session)%Q)
    by by_computation.
  assert (Hn : exists stem, PyStr.lower (name scanned_cv) = stem ++ ".pdf")
    by (exists "scan"; reflexivity).
  assert (Hb : forall page, In page [EmptyString; EmptyString] ->
                            page = EmptyString)
    by (intros page [<-|[<-|[]]]; reflexivity).
  exact (pdf_without_text_is_empty scan_libs (demo_click scanned_cv 100)
           initial_session scanned_cv [EmptyString; EmptyString]
           eq_refl eq_refl Ht eq_refl Hn eq_refl Hb).
Defined.

Lemma extraction_error_ends_run_witness :
  halted (run_script sample_libs (demo_click misnamed_cv 100) initial_session)
  = Some (Caught InExtraction (LibraryError "EOF marker not found")).
Proof.
  assert (Ht : (10 <= current_time (demo_click misnamed_cv 100)
                      - last_request_time initial_session)%Q)
    by by_computation.
  assert (Hx : extract_text_from_file sample_libs (Some misnamed_cv)
               = inl (LibraryError "EOF marker not found"))
    by by_computation.
  exact (proj1 (extraction_error_ends_run sample_libs
                  (demo_click misnamed_cv 100) initial_session misnamed_cv
                  (LibraryError "EOF marker not found")
                  eq_refl eq_refl Ht eq_refl Hx)).
Defined.

Lemma demo_mode_completes_witness :
  exists z,
    ats_score "data engineer" (Some (job_role (demo_click sample_cv 100)))
    = Some z /\
    run_script sample_libs (demo_click sample_cv 100) initial_session
    = mkConfig (Halt (Completed demo_feedback))
        (mkSession (current_time (demo_click sample_cv 100))
           (Some (file_hash sample_libs (content sample_cv)))
           (Some demo_feedback))
        [ReadUpload; Hashed (file_hash sample_libs (content sample_cv));
         Extracted; ShowWordCount (word_count "data engineer"); Scored z;
         ShowTier (tier z);
         PromptBuilt (build_prompt (job_role (demo_click sample_cv 100))
                        "data engineer");
         ShowFeedback demo_feedback].
Proof.
  assert (Ht : (10 <= current_time (demo_click sample_cv 100)
                      - last_request_time initial_session)%Q)
    by by_computation.
  assert (Hx : extract_text_from_file sample_libs (Some sample_cv)
               = inr "data engineer") by by_computation.
  exact (demo_mode_completes sample_libs (demo_click sample_cv 100)
           initial_session sample_cv "data engineer"
           eq_refl eq_refl Ht eq_refl Hx eq_refl eq_refl).
Defined.

Lemma gemini_reply_is_cached_verbatim_witness :
  provider_calls
    (trace (run_script sample_libs (gemini_click sample_cv 100)
              initial_session)) = 1%nat.
Proof.
  assert (Ht : (10 <= current_time (gemini_click sample_cv 100)
                      - last_request_time initial_session)%Q)
    by by_computation.
  assert (Hx : extract_text_from_file sample_libs (Some sample_cv)
               = inr "data engineer") by by_computation.
  exact (proj1 (gemini_reply_is_cached_verbatim sample_libs
                  (gemini_click sample_cv 100) initial_session sample_cv
                  "data engineer" eq_refl eq_refl Ht eq_refl Hx eq_refl
                  eq_refl eq_refl)).
Defined.

Lemma session_changes_only_when_started_witness :
  session (run_script sample_libs (demo_click sample_cv 105)
             (session first_click))
  = session first_click.
Proof.
  assert (H : halted (run_script sample_libs (demo_click sample_cv 105)
                        (session first_click))
              = Some StoppedTooSoon) by by_computation.
  exact (proj2 (proj2 (session_changes_only_when_started sample_libs
                         (demo_click sample_cv 105) (session first_click)
                         StoppedTooSoon H)) eq_refl).
Defined.

Lemma prompt_embeds_resume_and_role_witness :
  PyStr.contains "General job applications" (build_prompt "" "data engineer")
  = true.
Proof.
  apply (proj2 (proj2 (prompt_embeds_resume_and_role "" "data engineer"))).
  reflexivity.
Defined.

Lemma cache_hits_are_not_rate_limited_witness :
  run_all sample_libs (session first_click)
    [demo_click sample_cv 200; demo_click misnamed_cv 201]
  = session first_click.
Proof.
  assert (Hh : last_file_hash (session first_click)
               = Some (file_hash sample_libs (content sample_cv)))
    by by_computation.
  assert (H1 : unhurried_click_on (content sample_cv) (session first_click)
                 (demo_click sample_cv 200)).
  { split; [reflexivity|]. split; [exists sample_cv; split; reflexivity|].
    by_computation. }
  assert (H2 : unhurried_click_on (content sample_cv) (session first_click)
                 (demo_click misnamed_cv 201)).
  { split; [reflexivity|]. split; [exists misnamed_cv; split; reflexivity|].
    by_computation. }
  exact (proj1 (cache_hits_are_not_rate_limited sample_libs
                  (content sample_cv) (session first_click)
                  [demo_click sample_cv 200; demo_click misnamed_cv 201]
                  (demo_click sample_cv 200) Hh
                  (Forall_cons _ H1 (Forall_cons _ H2 (Forall_nil _)))
                  H1)).
Defined.
